(** * ib_ape_trader: the daily trading cycle of [ib_ape_trader.py]

    A shallow embedding of the module's functions and of [main].

    - Python numbers of type float are modelled as exact rationals ([Q]);
      [int(x)] is truncation toward zero.  Rounding, infinities and NaN
      are outside this model, and so is what [int] does on them.
    - The broker gateway and the trend data source are the environment: a
      record of oracles ([Env]) indexed by call counters.
    - Every function that talks to the environment is a computation in a
      state-and-exception monad [M]; the state holds the call counters, the
      wall clock (which moves only while the program sleeps) and the trace
      of observable events.
    - [setup_logging] has no effect on any of this and is left out.
    - The Python values that [main] handles dynamically (the entries of
      [MARKET_TIMES], the target of the tuple unpacking on the sell path and
      the arguments of [datetime.time]) are modelled by [pyval]. *)

From Stdlib Require Import ZArith QArith Qround List String Ascii Bool Lia.
Import ListNotations.
Open Scope string_scope.
Open Scope list_scope.
Open Scope Z_scope.

(** ** Python values and exceptions *)

Inductive exn : Type :=
| TypeError
| ValueError
| KeyError
| AttributeError
| ZeroDivisionError
| UnboundLocalError
| PyException (msg : string)
| LoopFuelExhausted.

Inductive result (A : Type) : Type :=
| Ok (a : A)
| Raise (e : exn).
Arguments Ok {A} a.
Arguments Raise {A} e.

(** A dict keeps its keys in insertion order, hence an association list. *)
#[local] Set Warnings "-register-all".
Inductive pyval : Type :=
| PInt (z : Z)
| PStr (s : string)
| PTuple (items : list pyval)
| PDict (entries : list (string * pyval)).

Fixpoint chars (s : string) : list pyval :=
  match s with
  | EmptyString => []
  | String c s' => PStr (String c EmptyString) :: chars s'
  end.

(** [iter(v)]: a tuple yields its items, a string its characters, a dict its
    keys; an int is not iterable. *)
Definition py_iter (v : pyval) : result (list pyval) :=
  match v with
  | PInt _ => Raise TypeError
  | PStr s => Ok (chars s)
  | PTuple items => Ok items
  | PDict entries => Ok (map (fun kv => PStr (fst kv)) entries)
  end.

(** [a, b = v] *)
Definition unpack2 (v : pyval) : result (pyval * pyval) :=
  match py_iter v with
  | Raise e => Raise e
  | Ok [a; b] => Ok (a, b)
  | Ok _ => Raise ValueError
  end.

Fixpoint dict_get (entries : list (string * pyval)) (key : string) : option pyval :=
  match entries with
  | [] => None
  | (k, v) :: rest => if String.eqb k key then Some v else dict_get rest key
  end.

(** [v[key]] *)
Definition subscript (v : pyval) (key : string) : result pyval :=
  match v with
  | PDict entries =>
      match dict_get entries key with
      | Some x => Ok x
      | None => Raise KeyError
      end
  | _ => Raise TypeError
  end.

(** ** Module constants *)

Definition RESERVE_PERCENTAGE : Q := 25 # 100.

Definition market_window (oh om ch cm : Z) : pyval :=
  PDict [("open", PTuple [PInt oh; PInt om]); ("close", PTuple [PInt ch; PInt cm])].

Definition MARKET_TIMES : list (string * pyval) :=
  [ ("NYSE", market_window 9 30 15 55);
    ("NASDAQ", market_window 9 30 15 55);
    ("TSX", market_window 9 30 15 55);
    ("LSE", market_window 8 0 16 25);
    ("TSE", market_window 9 0 13 25) ].

(** [MARKET_TIMES["NYSE"]]; the key is present, so the subscript cannot fail. *)
Definition MARKET_TIMES_NYSE : pyval :=
  match dict_get MARKET_TIMES "NYSE" with
  | Some v => v
  | None => PDict []
  end.

Definition get_market_times (exchange : string) : pyval :=
  match dict_get MARKET_TIMES exchange with
  | Some v => v
  | None => MARKET_TIMES_NYSE
  end.

(** ** Time of day *)

Record time_of_day : Type := mk_time
  { hour : Z; minute : Z; second : Z; microsecond : Z }.

Definition micros (t : time_of_day) : Z :=
  ((hour t * 60 + minute t) * 60 + second t) * 1000000 + microsecond t.

Definition time_lt (a b : time_of_day) : bool := micros a <? micros b.

Definition as_int (v : pyval) : result Z :=
  match v with
  | PInt z => Ok z
  | _ => Raise TypeError
  end.

Definition in_range (lo hi z : Z) : bool := (lo <=? z) && (z <=? hi).

(** [datetime.time] applied to positional arguments.  More than five are
    a type error; hour, minute, second and microsecond must be ints (a
    type error otherwise) and then in range (a value error otherwise); the
    fifth, the tzinfo, is looked at last, and as no value of [pyval] is a
    tzinfo it is a type error. *)
Definition datetime_time (args : list pyval) : result time_of_day :=
  let field (n : nat) : result Z :=
    match nth_error args n with
    | Some v => as_int v
    | None => Ok 0
    end in
  if (5 <? List.length args)%nat then Raise TypeError else
  match field 0%nat, field 1%nat, field 2%nat, field 3%nat with
  | Ok h, Ok m, Ok s, Ok us =>
      if in_range 0 23 h && in_range 0 59 m && in_range 0 59 s
         && in_range 0 999999 us
      then match nth_error args 4 with
           | Some _ => Raise TypeError
           | None => Ok (mk_time h m s us)
           end
      else Raise ValueError
  | Raise e, _, _, _ => Raise e
  | _, Raise e, _, _ => Raise e
  | _, _, Raise e, _ => Raise e
  | _, _, _, Raise e => Raise e
  end.

(** [datetime.time] applied to the unpacked iterable [v] (a starred argument). *)
Definition datetime_time_star (v : pyval) : result time_of_day :=
  match py_iter v with
  | Ok args => datetime_time args
  | Raise e => Raise e
  end.

(** ** Broker objects *)

(** [Stock(symbol, exchange, currency)] *)
Record Contract : Type := Stock
  { symbol : string; venue : string; currency : string }.

Inductive side : Type := BUY | SELL.

(** [MarketOrder(action, totalQuantity)] *)
Record Order : Type := MarketOrder
  { action : side; totalQuantity : Z }.

(** [trade.orderStatus] as read after the settling pause. *)
Record OrderStatus : Type := mk_status
  { status : string; avgFillPrice : Q }.

(** The ticker returned by [ib.reqMktData], as read after the pause. *)
Record Ticker : Type := mk_ticker
  { last : Q; close : Q }.

(** An element of [positions]: [(contract, quantity, exchange)]. *)
Definition Position : Type := Contract * Z * string.

(** ** The trend data source *)

(** One JSON object of the [results] array; a missing key is [None]. *)
Record item : Type := mk_item
  { item_ticker : option string; item_exchange : option string }.

(** A value under the results key that is not a list. *)
Inductive odd_results : Type :=
| RNotSubscriptable           (* null, a number or a boolean *)
| RString (s : string)        (* a string: it can be sliced, its items are characters *)
| RObject (hashable_slice : bool).
    (* an object: subscripting it with a slice is a TypeError (unhashable
       slice) up to Python 3.11 and a KeyError from Python 3.12 on; the flag
       says which of the two interpreters runs the program *)

(** What one [requests.get(url)] leads to.  The values of the ticker and
    exchange keys are taken to be strings. *)
Inductive response : Type :=
| TransportError              (* requests.get raises a RequestException *)
| HttpError                   (* raise_for_status raises HTTPError *)
| NotJson                     (* response.json() raises a ValueError *)
| NotAnObject                 (* the decoded value is not an object: no get method *)
| ResultsNotAList (v : odd_results)
    (* the decoded object has a results key whose value is not a list *)
| NonObjectEntry (before : list item)
    (* a results list with an entry among its first ten that is not an
       object (a string, a number, a list, null); [before] are the objects
       in front of the first such entry, at most nine *)
| Body (results : option (list item)).
    (* the decoded object; None: no results key; otherwise a list whose
       first ten entries are objects *)

(** ** Events, environment and state *)

Inductive cause : Type := CauseRequest | CauseValue.

Inductive log_msg : Type :=
| LogFetchFailed (c : cause) (delay : Z)
| LogConnectFailed
| LogClosedAll
| LogOrderFailed (sym : string) (st : string)
| LogSummary (total_profit daily_reserve reserve_fund : Q)
| LogComplete.

Inductive event : Type :=
| EConnect
| EPositions
| EHttpGet
| EAccountSummary
| EQualify (c : Contract)
| EReqMktData (c : Contract)
| EPlaceOrder (c : Contract) (o : Order)
| ENow
| ESleep (seconds : Z)
| ELog (m : log_msg)
| EDisconnect.

Record Env : Type := mk_env
  { connect_ok : nat -> bool;            (* does the i-th ib.connect succeed *)
    held : list (Contract * Z);          (* ib.positions() *)
    trend : nat -> response;             (* the i-th requests.get *)
    net_liquidation : Q;                 (* account summary, NetLiquidation *)
    market_data : nat -> Ticker;         (* the i-th ib.reqMktData *)
    order_status : nat -> OrderStatus }. (* the i-th ib.placeOrder *)

Record State : Type := mk_state
  { n_connect : nat;
    n_http : nat;
    n_mkt : nat;
    n_order : nat;
    clock : Z;                           (* seconds since midnight *)
    trace : list event }.                (* oldest event first *)

Definition day : Z := 86400.

Definition emit (e : event) (st : State) : State :=
  mk_state (n_connect st) (n_http st) (n_mkt st) (n_order st) (clock st)
           (trace st ++ [e]).

(** ** The monad *)

Definition M (A : Type) : Type := State -> result A * State.

Definition ret {A} (a : A) : M A := fun st => (Ok a, st).

Definition raise {A} (e : exn) : M A := fun st => (Raise e, st).

Definition bind {A B} (m : M A) (k : A -> M B) : M B :=
  fun st =>
    match m st with
    | (Ok a, st') => k a st'
    | (Raise e, st') => (Raise e, st')
    end.

Definition lift {A} (r : result A) : M A :=
  match r with
  | Ok a => ret a
  | Raise e => raise e
  end.

Declare Scope py_scope.
Delimit Scope py_scope with py.
Notation "x <- m ;; k" := (bind m (fun x => k))
  (at level 100, m at next level, right associativity) : py_scope.
Notation "' p <- m ;; k" := (bind m (fun x => match x with p => k end))
  (at level 100, p pattern, m at next level, right associativity) : py_scope.
Notation "m ;; k" := (bind m (fun _ => k))
  (at level 100, right associativity) : py_scope.
Open Scope py_scope.

Definition tell (e : event) : M unit := fun st => (Ok tt, emit e st).

Definition log (m : log_msg) : M unit := tell (ELog m).

(** [time.sleep(d)] and [ib.sleep(d)]: a negative duration is a ValueError;
    otherwise the clock moves on by [d] seconds. *)
Definition sleep (d : Z) : M unit :=
  fun st =>
    if d <? 0 then (Raise ValueError, st)
    else (Ok tt,
          mk_state (n_connect st) (n_http st) (n_mkt st) (n_order st)
                   ((clock st + d) mod day) (trace st ++ [ESleep d])).

(** [datetime.datetime.now().time()] *)
Definition now_time : M time_of_day :=
  fun st =>
    let c := clock st mod day in
    (Ok (mk_time (c / 3600) ((c / 60) mod 60) (c mod 60) 0), emit ENow st).

(** ** Arithmetic helpers *)

(** [int(x)] on a float: truncation toward zero. *)
Definition py_int (x : Q) : Z := Z.quot (Qnum x) (Zpos (Qden x)).

Definition Qlt_bool (x y : Q) : bool := negb (Qle_bool y x).

(** Truth value of a float: only zero is false. *)
Definition truthy (x : Q) : bool := negb (Qeq_bool x 0).

(** [a / b] (true division). *)
Definition py_truediv (a b : Q) : result Q :=
  if Qeq_bool b 0 then Raise ZeroDivisionError else Ok (a / b)%Q.

(** ** The functions of the module *)

Inductive attempt : Type :=
| Fetched (stocks : list (string * string))
| Retry (c : cause)
| Uncaught (e : exn).

(** [[(item['ticker'], item['exchange']) for item in items]] *)
Fixpoint parse_items (items : list item) : result (list (string * string)) :=
  match items with
  | [] => Ok []
  | it :: rest =>
      match item_ticker it, item_exchange it with
      | Some t, Some e =>
          match parse_items rest with
          | Ok stocks => Ok ((t, e) :: stocks)
          | Raise x => Raise x
          end
      | _, _ => Raise KeyError
      end
  end.

(** The body of the [try] block of [fetch_trending_stocks], once
    [requests.get] has produced (or failed to produce) a response. *)
Definition try_fetch (r : response) : attempt :=
  match r with
  | TransportError => Retry CauseRequest
  | HttpError => Retry CauseRequest
  | NotJson => Retry CauseValue
  | NotAnObject => Uncaught AttributeError
  | ResultsNotAList RNotSubscriptable => Uncaught TypeError
  | ResultsNotAList (RString s) =>
      match s with
      | EmptyString => Retry CauseValue
      | String _ _ => Uncaught TypeError
      end
  | ResultsNotAList (RObject hashable_slice) =>
      Uncaught (if hashable_slice then KeyError else TypeError)
  | NonObjectEntry before =>
      match parse_items (firstn 9 before) with
      | Raise e => Uncaught e
      | Ok _ => Uncaught TypeError
      end
  | Body results =>
      let items := firstn 10 (match results with Some l => l | None => [] end) in
      match parse_items items with
      | Raise e => Uncaught e
      | Ok [] => Retry CauseValue
      | Ok stocks => Fetched stocks
      end
  end.

Definition FETCH_FAILED : exn :=
  PyException "Failed to fetch trending stocks after multiple attempts.".

Definition CONNECT_FAILED : exn :=
  PyException "Failed to connect to Interactive Brokers after multiple attempts.".

(** The values of the local variables of [main] when it returns. *)
Record Summary : Type := mk_summary
  { total_profit : Q; daily_reserve : Q; reserve_fund : Q }.

Section Run.

Variable env : Env.

Definition http_get : M response :=
  fun st =>
    (Ok (trend env (n_http st)),
     mk_state (n_connect st) (S (n_http st)) (n_mkt st) (n_order st) (clock st)
              (trace st ++ [EHttpGet])).

(** [for attempt in range(n): ...] followed by the final [raise]. *)
Fixpoint fetch_loop (n : nat) (delay : Z) : M (list (string * string)) :=
  match n with
  | O => raise FETCH_FAILED
  | S n' =>
      r <- http_get ;;
      match try_fetch r with
      | Fetched stocks => ret stocks
      | Retry c => log (LogFetchFailed c delay) ;; sleep delay ;; fetch_loop n' delay
      | Uncaught e => raise e
      end
  end.

Definition fetch_trending_stocks (retries delay : Z) : M (list (string * string)) :=
  fetch_loop (Z.to_nat retries) delay.

(** [ib.connect('127.0.0.1', 7497, clientId=1)]: [true] when it returns. *)
Definition ib_connect : M bool :=
  fun st =>
    (Ok (connect_ok env (n_connect st)),
     mk_state (S (n_connect st)) (n_http st) (n_mkt st) (n_order st) (clock st)
              (trace st ++ [EConnect])).

Fixpoint connect_loop (n : nat) : M unit :=
  match n with
  | O => raise CONNECT_FAILED
  | S n' =>
      ok <- ib_connect ;;
      if ok then ret tt
      else log LogConnectFailed ;; sleep 5 ;; connect_loop n'
  end.

Definition connect_ib : M unit := connect_loop 3.

Definition get_available_funds (reserve_fund : Q) : M Q :=
  tell EAccountSummary ;;
  ret ((net_liquidation env - reserve_fund) * (95 # 100))%Q.

(** [ib.placeOrder(contract, order)]; the trade is the index of the order. *)
Definition place_order (c : Contract) (o : Order) : M nat :=
  fun st =>
    (Ok (n_order st),
     mk_state (n_connect st) (n_http st) (n_mkt st) (S (n_order st)) (clock st)
              (trace st ++ [EPlaceOrder c o])).

Definition req_mkt_data (c : Contract) : M Ticker :=
  fun st =>
    (Ok (market_data env (n_mkt st)),
     mk_state (n_connect st) (n_http st) (S (n_mkt st)) (n_order st) (clock st)
              (trace st ++ [EReqMktData c])).

Fixpoint liquidate (ps : list (Contract * Z)) : M unit :=
  match ps with
  | [] => ret tt
  | (c, q) :: rest => place_order c (MarketOrder SELL q) ;; liquidate rest
  end.

Definition close_all_positions : M unit :=
  tell EPositions ;;
  liquidate (held env) ;;
  log LogClosedAll.

(** [market_data.last if market_data.last else market_data.close] *)
Definition reference_price (t : Ticker) : Q :=
  if truthy (last t) then last t else close t.

(** [int(allocation_per_stock / market_price) if market_price > 0 else 0] *)
Definition share_quantity (allocation_per_stock market_price : Q) : Z :=
  if Qlt_bool 0 market_price
  then py_int (allocation_per_stock / market_price)
  else 0.

(** [status in ['Filled', 'Submitted']] *)
Definition accepted (s : string) : bool :=
  String.eqb s "Filled" || String.eqb s "Submitted".

(** One iteration of the buy loop.  It returns the new values of the
    variables [market_price] and [positions]. *)
Definition buy_one (allocation_per_stock : Q) (s : string * string)
    (positions : list Position) : M (Q * list Position) :=
  let '(stock, exchange) := s in
  let contract := Stock stock "SMART" "USD" in
  tell (EQualify contract) ;;
  ticker <- req_mkt_data contract ;;
  sleep 1 ;;
  let market_price := reference_price ticker in
  let quantity := share_quantity allocation_per_stock market_price in
  if 0 <? quantity then
    trade <- place_order contract (MarketOrder BUY quantity) ;;
    sleep 2 ;;
    (if accepted (status (order_status env trade)) then ret tt
     else log (LogOrderFailed (symbol contract) (status (order_status env trade)))) ;;
    ret (market_price, positions ++ [(contract, quantity, exchange)])
  else
    ret (market_price, positions).

(** [for stock, exchange in stocks: ...]; [market_price] is unbound ([None])
    until the first iteration has assigned it. *)
Fixpoint buy_loop (allocation_per_stock : Q) (stocks : list (string * string))
    (market_price : option Q) (positions : list Position)
  : M (option Q * list Position) :=
  match stocks with
  | [] => ret (market_price, positions)
  | s :: rest =>
      '(p, positions') <- buy_one allocation_per_stock s positions ;;
      buy_loop allocation_per_stock rest (Some p) positions'
  end.

(** [while datetime.datetime.now().time() < datetime.time( *close_time):
       time.sleep(1)].
    The condition is evaluated left to right; [fuel] bounds the number of
    times the body runs. *)
Fixpoint wait_for_close (fuel : nat) (close_time : pyval) : M unit :=
  now <- now_time ;;
  limit <- lift (datetime_time_star close_time) ;;
  if time_lt now limit then
    match fuel with
    | O => raise LoopFuelExhausted
    | S fuel' => sleep 1 ;; wait_for_close fuel' close_time
    end
  else ret tt.

(** The sell statements of one iteration: place the order, pause, and add
    to [total_profit] when the order reports Filled. *)
Definition sell_position (market_price : option Q) (total_profit : Q)
    (contract : Contract) (quantity : Z) : M Q :=
  trade <- place_order contract (MarketOrder SELL quantity) ;;
  sleep 2 ;;
  if String.eqb (status (order_status env trade)) "Filled" then
    match market_price with
    | Some p =>
        ret (total_profit
             + (avgFillPrice (order_status env trade) - p) * inject_Z quantity)%Q
    | None => raise UnboundLocalError
    end
  else ret total_profit.

(** One iteration of the sell loop. *)
Definition sell_one (fuel : nat) (market_price : option Q) (total_profit : Q)
    (pos : Position) : M Q :=
  let '(contract, quantity, exchange) := pos in
  '(_, close_time) <- lift (unpack2 (get_market_times exchange)) ;;
  wait_for_close fuel close_time ;;
  sell_position market_price total_profit contract quantity.

Fixpoint sell_loop (fuel : nat) (market_price : option Q) (total_profit : Q)
    (positions : list Position) : M Q :=
  match positions with
  | [] => ret total_profit
  | pos :: rest =>
      total_profit' <- sell_one fuel market_price total_profit pos ;;
      sell_loop fuel market_price total_profit' rest
  end.

(** The reserve bookkeeping and the end of [main]. *)
Definition reconcile (reserve_fund total_profit : Q) : M Summary :=
  let daily_reserve := (total_profit * RESERVE_PERCENTAGE)%Q in
  let reserve_fund' := (reserve_fund + daily_reserve)%Q in
  log (LogSummary total_profit daily_reserve reserve_fund') ;;
  tell EDisconnect ;;
  log LogComplete ;;
  ret (mk_summary total_profit daily_reserve reserve_fund').

(** The trading part of [main], from the allocation to the last sale. *)
Definition trade_day (fuel : nat) (reserve_fund : Q) (stocks : list (string * string))
  : M Q :=
  available_funds <- get_available_funds reserve_fund ;;
  allocation_per_stock <-
    lift (py_truediv available_funds (inject_Z (Z.of_nat (List.length stocks)))) ;;
  '(market_price, positions) <- buy_loop allocation_per_stock stocks None [] ;;
  sell_loop fuel market_price 0 positions.

Definition main (fuel : nat) : M Summary :=
  connect_ib ;;
  close_all_positions ;;
  let reserve_fund := 0%Q in
  stocks <- fetch_trending_stocks 3 5 ;;
  total_profit <- trade_day fuel reserve_fund stocks ;;
  reconcile reserve_fund total_profit.

End Run.

Definition init_state (start : Z) : State := mk_state 0 0 0 0 start [].

(** Orders in a trace. *)
Definition orders_of (tr : list event) : list (Contract * Order) :=
  flat_map (fun e => match e with EPlaceOrder c o => [(c, o)] | _ => [] end) tr.

Definition orders_with (s : side) (tr : list event) : list (Contract * Order) :=
  filter (fun co => match action (snd co), s with
                    | BUY, BUY | SELL, SELL => true
                    | _, _ => false
                    end) (orders_of tr).

Definition count_event (p : event -> bool) (tr : list event) : nat :=
  List.length (filter p tr).

Definition is_http_get (e : event) : bool :=
  match e with EHttpGet => true | _ => false end.

Definition is_summary (e : event) : bool :=
  match e with ELog (LogSummary _ _ _) => true | _ => false end.

Definition is_account_summary (e : event) : bool :=
  match e with EAccountSummary => true | _ => false end.

(** The contract that the buy loop builds for a ticker symbol. *)
Definition smart (c : Contract) : Prop :=
  venue c = "SMART" /\ currency c = "USD".

(** The events of one failed attempt of [fetch_trending_stocks]. *)
Definition failed_attempts (causes : list cause) (delay : Z) : list event :=
  flat_map (fun c => [EHttpGet; ELog (LogFetchFailed c delay); ESleep delay]) causes.

(** The sum of the shares handed to the tickers of [stocks]. *)
Definition shares_total (share : Q) (stocks : list (string * string)) : Q :=
  fold_right Qplus 0%Q (map (fun _ => share) stocks).

(** ** Specifications over traces

    [emits m P R]: whatever the start state, [m] only appends events to the
    trace, each of them satisfies [P], and a returned value satisfies [R]. *)
Definition emits {A} (m : M A) (P : event -> Prop) (R : A -> Prop) : Prop :=
  forall st,
    exists evs,
      trace (snd (m st)) = trace st ++ evs /\
      Forall P evs /\
      (forall a, fst (m st) = Ok a -> R a).

(** Events of the two trading loops: every order goes to a SMART/USD
    contract, and nothing but market data, orders, pauses, clock reads and
    order warnings happens. *)
Definition trading_event (e : event) : Prop :=
  match e with
  | EQualify c | EReqMktData c | EPlaceOrder c _ => smart c
  | ENow | ESleep _ | ELog (LogOrderFailed _ _) => True
  | _ => False
  end.

(** Events of the sell loop over [positions]: clock reads, pauses, and sell
    orders for entries of the list. *)
Definition sell_event (positions : list Position) (e : event) : Prop :=
  match e with
  | EPlaceOrder c o => exists q exchange,
      In (c, q, exchange) positions /\ o = MarketOrder SELL q
  | ENow | ESleep _ => True
  | _ => False
  end.

(** Events of the steps before the allocation: connection and fetch
    attempts with their log lines and pauses, and the liquidation, whose
    orders are all sells. *)
Definition startup_event (e : event) : Prop :=
  match e with
  | EConnect | EPositions | EHttpGet | ESleep _ => True
  | ELog LogConnectFailed | ELog LogClosedAll | ELog (LogFetchFailed _ _) => True
  | EPlaceOrder _ o => action o = SELL
  | _ => False
  end.

Definition smart_position (pos : Position) : Prop := smart (fst (fst pos)).

(** The value that [trade_day] binds to [allocation_per_stock] when the
    list of tickers is not empty. *)
Definition per_stock_budget (env : Env) (reserve : Q) (stocks : list (string * string)) : Q :=
  ((net_liquidation env - reserve) * (95 # 100)
   / inject_Z (Z.of_nat (List.length stocks)))%Q.

(** The steps of [main] before the allocation. *)
Definition startup (env : Env) : M (list (string * string)) :=
  connect_ib env ;;
  close_all_positions env ;;
  fetch_trending_stocks env 3 5.

(** The warning that follows a buy order, if any. *)
Definition buy_warning (sym : string) (os : OrderStatus) : list event :=
  if accepted (status os) then [] else [ELog (LogOrderFailed sym (status os))].

(** The events of one iteration of the buy loop for contract [c], computed
    quantity [q] and order reply [os]. *)
Definition buy_events (c : Contract) (q : Z) (os : OrderStatus) : list event :=
  [EQualify c; EReqMktData c; ESleep 1]
  ++ (if 0 <? q
      then [EPlaceOrder c (MarketOrder BUY q); ESleep 2] ++ buy_warning (symbol c) os
      else []).

(** ** Vocabulary for the statements about the remaining code *)

(** The JSON object that carries a (ticker, exchange) pair. *)
Definition item_of (s : string * string) : item :=
  mk_item (Some (fst s)) (Some (snd s)).

(** An object of the results array that lacks one of the two keys. *)
Definition malformed (it : item) : Prop :=
  item_ticker it = None \/ item_exchange it = None.

(** The order that [close_all_positions] places for a holding. *)
Definition liquidation_order (cq : Contract * Z) : Contract * Order :=
  (fst cq, MarketOrder SELL (snd cq)).

(** The buy order behind an element of [positions]. *)
Definition buy_order_of (pos : Position) : Contract * Order :=
  (fst (fst pos), MarketOrder BUY (snd (fst pos))).

(** The events of [k] failed connection attempts. *)
Definition failed_connects (k : nat) : list event :=
  List.concat (repeat [EConnect; ELog LogConnectFailed; ESleep 5] k).

(** The events of [k] rounds of the polling loop. *)
Definition polls (k : nat) : list event :=
  List.concat (repeat [ENow; ESleep 1] k).

(** Seconds since midnight of the time of day h:m. *)
Definition seconds_of (h m : Z) : Z := h * 3600 + m * 60.

Definition is_disconnect (e : event) : bool :=
  match e with EDisconnect => true | _ => false end.

(** ** Sample environments *)

Definition two_tickers : response :=
  Body (Some [mk_item (Some "AAPL") (Some "NASDAQ");
              mk_item (Some "SHOP") (Some "TSX")]).

(** Investable capital 10000, AAPL at 250, SHOP (no last trade) at 90. *)
Definition sample_env (order_reply : OrderStatus) : Env :=
  mk_env (fun _ => true) []
         (fun _ => two_tickers)
         (200000 # 19)
         (fun i => match i with O => mk_ticker 250 0 | _ => mk_ticker 0 90 end)
         (fun _ => order_reply).

(** The same account with nothing to invest. *)
Definition broke_env : Env :=
  mk_env (fun _ => true) []
         (fun _ => two_tickers)
         0
         (fun i => match i with O => mk_ticker 250 0 | _ => mk_ticker 0 90 end)
         (fun _ => mk_status "Filled" 260).

(** The trend source fails on the first [n] calls, then answers. *)
Definition flaky_env (n : nat) : Env :=
  mk_env (fun _ => true) []
         (fun i => if (i <? n)%nat then TransportError else two_tickers)
         (200000 # 19)
         (fun _ => mk_ticker 250 0)
         (fun _ => mk_status "Filled" 260).

(** The gateway refuses every connection. *)
Definition offline_env : Env :=
  mk_env (fun _ => false) []
         (fun _ => two_tickers)
         (200000 # 19)
         (fun _ => mk_ticker 250 0)
         (fun _ => mk_status "Filled" 260).

(** An account that holds 10 MSFT and is short 5 TSLA. *)
Definition holding_env : Env :=
  mk_env (fun _ => true)
         [(Stock "MSFT" "SMART" "USD", 10); (Stock "TSLA" "SMART" "USD", -5)]
         (fun _ => TransportError)
         (200000 # 19)
         (fun _ => mk_ticker 250 0)
         (fun _ => mk_status "Filled" 260).

(** The second object of the answer has no exchange key. *)
Definition malformed_env : Env :=
  mk_env (fun _ => true) []
         (fun _ => Body (Some [mk_item (Some "AAPL") (Some "NASDAQ");
                               mk_item (Some "SHOP") None]))
         (200000 # 19)
         (fun _ => mk_ticker 250 0)
         (fun _ => mk_status "Filled" 260).

(** The gateway accepts the second connection attempt. *)
Definition slow_gateway_env : Env :=
  mk_env (fun i => (1 <=? i)%nat) []
         (fun _ => two_tickers)
         (200000 # 19)
         (fun _ => mk_ticker 250 0)
         (fun _ => mk_status "Filled" 260).

(** One ticker: investable capital 5000, AAPL at 250, every order filled
    at 260. *)
Definition scenario_env : Env :=
  mk_env (fun _ => true) []
         (fun _ => Body (Some [mk_item (Some "AAPL") (Some "NASDAQ")]))
         (100000 # 19)
         (fun _ => mk_ticker 250 0)
         (fun _ => mk_status "Filled" 260).

(** The trend source answers with a JSON null under the results key. *)
Definition null_results_env : Env :=
  mk_env (fun _ => true) []
         (fun _ => ResultsNotAList RNotSubscriptable)
         (200000 # 19)
         (fun _ => mk_ticker 250 0)
         (fun _ => mk_status "Filled" 260).

Definition nine_thirty : Z := 34200.

Definition a_day_of_polls : nat := Z.to_nat day.

(** ** The monad *)

Lemma bind_ok {A B} (m : M A) (k : A -> M B) st a st' :
  m st = (Ok a, st') -> bind m k st = k a st'.
Proof. intros H. unfold bind. rewrite H. reflexivity. Qed.

Lemma bind_raise {A B} (m : M A) (k : A -> M B) st e st' :
  m st = (Raise e, st') -> bind m k st = (Raise e, st').
Proof. intros H. unfold bind. rewrite H. reflexivity. Qed.

Lemma bind_inv_ok {A B} (m : M A) (k : A -> M B) st b st' :
  bind m k st = (Ok b, st') ->
  exists a st1, m st = (Ok a, st1) /\ k a st1 = (Ok b, st').
Proof.
  unfold bind. destruct (m st) as [[a | e] st1].
  - intros H. exists a, st1. split; [reflexivity | exact H].
  - discriminate.
Qed.

Lemma bind_assoc {A B C} (m : M A) (k : A -> M B) (h : B -> M C) st :
  bind (bind m k) h st = bind m (fun a => bind (k a) h) st.
Proof.
  unfold bind. destruct (m st) as [[a | e] st1]; reflexivity.
Qed.

(** ** Rules for [emits] *)

Lemma emits_ret {A} (a : A) (P : event -> Prop) (R : A -> Prop) :
  R a -> emits (ret a) P R.
Proof.
  intros Ha st. exists []. simpl. rewrite app_nil_r.
  repeat split; [constructor |]. intros b Hb. inversion Hb; subst; exact Ha.
Qed.

Lemma emits_raise {A} (e : exn) (P : event -> Prop) (R : A -> Prop) :
  emits (raise e) P R.
Proof.
  intros st. exists []. simpl. rewrite app_nil_r.
  repeat split; [constructor |]. intros b Hb. discriminate.
Qed.

Lemma emits_lift {A} (r : result A) (P : event -> Prop) (R : A -> Prop) :
  (forall a, r = Ok a -> R a) -> emits (lift r) P R.
Proof.
  destruct r as [a | e]; simpl; intros H.
  - apply emits_ret. now apply H.
  - apply emits_raise.
Qed.

Lemma emits_bind {A B} (m : M A) (k : A -> M B) P (R : A -> Prop) (S : B -> Prop) :
  emits m P R -> (forall a, R a -> emits (k a) P S) -> emits (bind m k) P S.
Proof.
  intros Hm Hk st. destruct (Hm st) as (evs & Htr & Hall & Hres).
  unfold bind. destruct (m st) as [[a | e] st1]; simpl in *.
  - destruct (Hk a (Hres a eq_refl) st1) as (evs' & Htr' & Hall' & Hres').
    exists (evs ++ evs'). rewrite Htr', Htr, app_assoc.
    repeat split; [now apply Forall_app | exact Hres'].
  - exists evs. repeat split; try assumption. intros b Hb. discriminate.
Qed.

Lemma emits_weaken {A} (m : M A) (P P' : event -> Prop) (R R' : A -> Prop) :
  emits m P R -> (forall e, P e -> P' e) -> (forall a, R a -> R' a) ->
  emits m P' R'.
Proof.
  intros Hm HP HR st. destruct (Hm st) as (evs & Htr & Hall & Hres).
  exists evs. repeat split; [exact Htr | | now auto].
  eapply Forall_impl; [exact HP | exact Hall].
Qed.

Lemma emits_tell (e : event) (P : event -> Prop) :
  P e -> emits (tell e) P (fun _ => True).
Proof.
  intros He st. exists [e]. simpl.
  repeat split; now constructor.
Qed.

Lemma emits_sleep (d : Z) (P : event -> Prop) :
  P (ESleep d) -> emits (sleep d) P (fun _ => True).
Proof.
  intros He st. unfold sleep. destruct (d <? 0); simpl.
  - exists []. rewrite app_nil_r. repeat split; constructor.
  - exists [ESleep d]. repeat split; now constructor.
Qed.

Lemma emits_place_order c o (P : event -> Prop) :
  P (EPlaceOrder c o) -> emits (place_order c o) P (fun _ => True).
Proof.
  intros He st. exists [EPlaceOrder c o]. simpl.
  repeat split; now constructor.
Qed.

Lemma emits_req_mkt_data env c (P : event -> Prop) :
  P (EReqMktData c) -> emits (req_mkt_data env c) P (fun _ => True).
Proof.
  intros He st. exists [EReqMktData c]. simpl.
  repeat split; now constructor.
Qed.

Lemma emits_now (P : event -> Prop) :
  P ENow -> emits now_time P (fun _ => True).
Proof.
  intros He st. exists [ENow]. simpl.
  repeat split; now constructor.
Qed.

(** ** The market calendar and the wait for the close *)

Lemma get_market_times_window (exchange : string) :
  exists oh om ch cm, get_market_times exchange = market_window oh om ch cm.
Proof.
  unfold get_market_times, MARKET_TIMES_NYSE, MARKET_TIMES.
  cbn [dict_get].
  repeat (destruct (String.eqb _ exchange); [do 4 eexists; reflexivity |]).
  cbn. do 4 eexists; reflexivity.
Qed.

(** The lookup falls back to the NYSE entry for an unlisted exchange. *)
Lemma get_market_times_default (exchange : string) :
  dict_get MARKET_TIMES exchange = None ->
  get_market_times exchange = market_window 9 30 15 55.
Proof.
  intros H. unfold get_market_times. rewrite H. reflexivity.
Qed.

(** Unpacking an entry of the calendar binds the two keys of the dict. *)
Lemma unpack_market_times (exchange : string) :
  unpack2 (get_market_times exchange) = Ok (PStr "open", PStr "close").
Proof.
  destruct (get_market_times_window exchange) as (oh & om & ch & cm & ->).
  reflexivity.
Qed.

Lemma wait_for_close_key (fuel : nat) (st : State) :
  wait_for_close fuel (PStr "close") st = (Raise TypeError, emit ENow st).
Proof.
  destruct fuel; reflexivity.
Qed.

Lemma sell_one_raises env fuel market_price total_profit pos st :
  sell_one env fuel market_price total_profit pos st
  = (Raise TypeError, emit ENow st).
Proof.
  destruct pos as [[contract quantity] exchange].
  unfold sell_one. rewrite unpack_market_times. cbn [lift].
  unfold bind at 1. cbn [ret].
  erewrite bind_raise; [reflexivity | apply wait_for_close_key].
Qed.

Lemma sell_loop_raises env fuel market_price total_profit pos rest st :
  sell_loop env fuel market_price total_profit (pos :: rest) st
  = (Raise TypeError, emit ENow st).
Proof.
  cbn [sell_loop]. erewrite bind_raise; [reflexivity | apply sell_one_raises].
Qed.

(** C1 (the code departs from the claim).  The calendar does hold the close
    time 15:55 for NASDAQ, and the NYSE entry stands in for an exchange that
    is not listed; but the sell loop unpacks the calendar entry, a dict,
    into its two keys: [close_time] is the string close, building the time
    of day from it is a type error, and the iteration stops there: no
    polling pause and no sell order follow the first clock read. *)
Theorem C1_wait_raises_before_selling :
  subscript (get_market_times "NASDAQ") "close" = Ok (PTuple [PInt 15; PInt 55])
  /\ get_market_times "XETRA" = MARKET_TIMES_NYSE
  /\ unpack2 (get_market_times "NASDAQ") = Ok (PStr "open", PStr "close")
  /\ datetime_time_star (PStr "close") = Raise TypeError
  /\ forall st,
       sell_one (sample_env (mk_status "Filled" 260)) a_day_of_polls (Some 90%Q) 0%Q
                (Stock "AAPL" "SMART" "USD", 20, "NASDAQ") st
       = (Raise TypeError, emit ENow st).
Proof.
  repeat (split; [reflexivity |]).
  intros st. apply sell_one_raises.
Qed.

(** C2 (the code departs from the claim).  A sell loop over a list with at
    least one position raises the type error of its first wait and submits
    no order.  With two tickers bought (20 AAPL and 55 SHOP), [main] ends
    with that error: both positions are on the list and no sell order was
    submitted for either. *)
Theorem C2_positions_left_unsold :
  (forall env fuel market_price total pos rest st,
      fst (sell_loop env fuel market_price total (pos :: rest) st) = Raise TypeError
      /\ orders_of (trace (snd (sell_loop env fuel market_price total (pos :: rest) st)))
         = orders_of (trace st))
  /\ (let run := main (sample_env (mk_status "Filled" 260)) a_day_of_polls
                      (init_state nine_thirty) in
      fst run = Raise TypeError
      /\ orders_with BUY (trace (snd run))
         = [ (Stock "AAPL" "SMART" "USD", MarketOrder BUY 20);
             (Stock "SHOP" "SMART" "USD", MarketOrder BUY 55) ]
      /\ orders_with SELL (trace (snd run)) = []).
Proof.
  split.
  - intros. rewrite sell_loop_raises. cbn [fst snd emit trace].
    split; [reflexivity |].
    unfold orders_of. rewrite flat_map_app. cbn. apply app_nil_r.
  - vm_compute. repeat split.
Qed.

(** ** The buy loop *)

Lemma buy_one_spec env alloc stock exchange positions st :
  let c := Stock stock "SMART" "USD" in
  let p := reference_price (market_data env (n_mkt st)) in
  let q := share_quantity alloc p in
  let os := order_status env (n_order st) in
  exists st',
    buy_one env alloc (stock, exchange) positions st
    = (Ok (p, if 0 <? q then positions ++ [(c, q, exchange)] else positions), st')
    /\ trace st' = trace st ++ buy_events c q os
    /\ n_mkt st' = S (n_mkt st)
    /\ n_order st' = (if 0 <? q then S (n_order st) else n_order st).
Proof.
  intros c p q os.
  unfold buy_one, buy_events, buy_warning, bind, tell, req_mkt_data, sleep,
    place_order, log, ret, emit.
  cbn. fold c p q os.
  destruct (0 <? q); cbn.
  - fold os. destruct (accepted (status os)); cbn;
      eexists; repeat split; cbn; rewrite <- ?app_assoc; reflexivity.
  - eexists; repeat split; cbn; rewrite <- ?app_assoc; reflexivity.
Qed.

Lemma buy_loop_ok env alloc stocks :
  forall market_price positions st,
  exists positions' st',
    buy_loop env alloc stocks market_price positions st
    = (Ok (match stocks with
           | [] => market_price
           | _ :: _ =>
               Some (reference_price
                       (market_data env (n_mkt st + List.length stocks - 1)))
           end, positions'), st')
    /\ n_mkt st' = (n_mkt st + List.length stocks)%nat.
Proof.
  induction stocks as [| [stock exchange] rest IH]; intros mp ps st.
  - exists ps, st. split; [reflexivity | cbn; lia].
  - destruct (buy_one_spec env alloc stock exchange ps st)
      as (st1 & Hrun & _ & Hmkt & _).
    cbn [buy_loop]. erewrite bind_ok by exact Hrun.
    destruct (IH (Some (reference_price (market_data env (n_mkt st))))
                 (if 0 <? share_quantity alloc
                            (reference_price (market_data env (n_mkt st)))
                  then ps ++ [(Stock stock "SMART" "USD",
                               share_quantity alloc
                                 (reference_price (market_data env (n_mkt st))),
                               exchange)]
                  else ps) st1)
      as (ps' & st' & Hloop & Hmkt').
    exists ps', st'. rewrite Hloop, Hmkt', Hmkt. split; [| cbn; lia].
    destruct rest as [| s rest'].
    + cbn. replace (n_mkt st + 1 - 1)%nat with (n_mkt st) by lia. reflexivity.
    + cbn [List.length].
      replace (S (n_mkt st) + S (List.length rest') - 1)%nat
        with (n_mkt st + S (S (List.length rest')) - 1)%nat by lia.
      reflexivity.
Qed.

(** ** The sell statements *)

Lemma sell_position_spec env p total c q st :
  exists st',
    sell_position env (Some p) total c q st
    = (Ok (if String.eqb (status (order_status env (n_order st))) "Filled"
           then (total
                 + (avgFillPrice (order_status env (n_order st)) - p)
                   * inject_Z q)%Q
           else total), st')
    /\ trace st' = trace st ++ [EPlaceOrder c (MarketOrder SELL q); ESleep 2].
Proof.
  unfold sell_position, bind, place_order, sleep, ret. cbn.
  destruct (String.eqb (status (order_status env (n_order st))) "Filled");
    eexists; split; try reflexivity; cbn; rewrite <- app_assoc; reflexivity.
Qed.

(** The price used for the AAPL position is the one computed for SHOP. *)
Example shared_reference_price :
  fst (buy_loop (sample_env (mk_status "Filled" 260)) 5000 [("AAPL", "NASDAQ"); ("SHOP", "TSX")]
                None [] (init_state nine_thirty))
  = Ok (Some 90%Q,
        [ (Stock "AAPL" "SMART" "USD", 20, "NASDAQ");
          (Stock "SHOP" "SMART" "USD", 55, "TSX") ]).
Proof. reflexivity. Qed.

(** A sale filled at 260 against a reference price of 250 for 20 shares
    adds 200. *)
Example filled_sale_adds_200 :
  fst (sell_position (sample_env (mk_status "Filled" 260)) (Some 250%Q) 0
                     (Stock "AAPL" "SMART" "USD") 20 (init_state nine_thirty))
  = Ok (0 + (260 - 250) * inject_Z 20)%Q
  /\ (0 + (260 - 250) * inject_Z 20 == 200)%Q.
Proof. split; reflexivity. Qed.

(** C8, as the code has it.  For a ticker whose quantity is positive the buy
    order is placed and the position is appended whatever status the order
    reports; a status other than Filled or Submitted only adds a warning to
    the log, and the iteration returns normally. *)
Theorem C8_position_recorded_whatever_the_status :
  forall env alloc stock exchange positions st,
    let c := Stock stock "SMART" "USD" in
    let p := reference_price (market_data env (n_mkt st)) in
    let q := share_quantity alloc p in
    let os := order_status env (n_order st) in
    0 < q ->
    exists st',
      buy_one env alloc (stock, exchange) positions st
      = (Ok (p, positions ++ [(c, q, exchange)]), st')
      /\ trace st'
         = trace st
           ++ [EQualify c; EReqMktData c; ESleep 1;
               EPlaceOrder c (MarketOrder BUY q); ESleep 2]
           ++ (if accepted (status os) then []
               else [ELog (LogOrderFailed stock (status os))]).
Proof.
  intros env alloc stock exchange positions st c p q os Hq.
  destruct (buy_one_spec env alloc stock exchange positions st)
    as (st' & Hrun & Htr & _).
  fold c p q os in Hrun, Htr.
  apply Z.ltb_lt in Hq.
  unfold buy_events, buy_warning in Htr. rewrite Hq in Hrun, Htr.
  exists st'. split; [exact Hrun |]. rewrite Htr. reflexivity.
Qed.

Lemma C8_position_recorded_whatever_the_status_witness :
  exists st',
    buy_one (sample_env (mk_status "Cancelled" 0)) 5000 ("AAPL", "NASDAQ") []
            (init_state nine_thirty)
    = (Ok (250%Q, [(Stock "AAPL" "SMART" "USD", 20, "NASDAQ")]), st')
    /\ trace st'
       = [EQualify (Stock "AAPL" "SMART" "USD");
          EReqMktData (Stock "AAPL" "SMART" "USD"); ESleep 1;
          EPlaceOrder (Stock "AAPL" "SMART" "USD") (MarketOrder BUY 20);
          ESleep 2; ELog (LogOrderFailed "AAPL" "Cancelled")].
Proof.
  apply (C8_position_recorded_whatever_the_status
           (sample_env (mk_status "Cancelled" 0)) 5000 "AAPL" "NASDAQ" []
           (init_state nine_thirty)).
  reflexivity.
Defined.

(** C8 as stated fails: the order is reported Cancelled, which is neither
    Filled nor Submitted, and the position is on the list all the same. *)
Lemma C8_rejected_buy_still_recorded :
  accepted "Cancelled" = false
  /\ fst (buy_one (sample_env (mk_status "Cancelled" 0)) 5000 ("AAPL", "NASDAQ") []
                  (init_state nine_thirty))
     = Ok (250%Q, [(Stock "AAPL" "SMART" "USD", 20, "NASDAQ")]).
Proof. split; reflexivity. Qed.

(** ** The share quantity *)

Lemma py_int_nonneg_floor (x : Q) : (0 <= x)%Q -> py_int x = Qfloor x.
Proof.
  destruct x as [n d]. unfold Qle, py_int, Qfloor. cbn. intros H.
  apply Z.quot_div_nonneg; lia.
Qed.

Lemma share_quantity_positive_price (alloc price : Q) :
  (0 < price)%Q -> share_quantity alloc price = py_int (alloc / price).
Proof.
  intros H. unfold share_quantity, Qlt_bool.
  destruct (Qle_bool price 0) eqn:E; [| reflexivity].
  apply Qle_bool_iff in E. exfalso. exact (Qlt_not_le _ _ H E).
Qed.

Lemma share_quantity_floor (alloc price : Q) :
  (0 < price)%Q -> (0 <= alloc)%Q ->
  share_quantity alloc price = Qfloor (alloc / price).
Proof.
  intros Hp Ha. rewrite share_quantity_positive_price by exact Hp.
  apply py_int_nonneg_floor.
  apply Qle_shift_div_l; [exact Hp |]. rewrite Qmult_0_l. exact Ha.
Qed.

Lemma share_quantity_no_price (alloc price : Q) :
  (price <= 0)%Q -> share_quantity alloc price = 0.
Proof.
  intros H. unfold share_quantity, Qlt_bool.
  apply Qle_bool_iff in H. rewrite H. reflexivity.
Qed.

(** ** What each phase appends to the trace *)

Lemma wait_for_close_emits fuel close_time :
  emits (wait_for_close fuel close_time)
        (fun e => e = ENow \/ e = ESleep 1) (fun _ => True).
Proof.
  induction fuel as [| fuel IH]; cbn [wait_for_close].
  all: eapply emits_bind; [apply emits_now; now left |]; intros now _.
  all: eapply emits_bind; [apply emits_lift; intros; exact I |]; intros limit _.
  all: destruct (time_lt now limit); try (apply emits_ret; exact I).
  - apply emits_raise.
  - eapply emits_bind; [apply emits_sleep; now right |].
    intros _ _. exact IH.
Qed.

Lemma sell_position_emits env market_price total c q :
  emits (sell_position env market_price total c q)
        (fun e => e = EPlaceOrder c (MarketOrder SELL q) \/ e = ESleep 2)
        (fun _ => True).
Proof.
  unfold sell_position.
  eapply emits_bind; [apply emits_place_order; now left |]; intros trade _.
  eapply emits_bind; [apply emits_sleep; now right |]; intros _ _.
  destruct (String.eqb _ _); [| apply emits_ret; exact I].
  destruct market_price; [apply emits_ret; exact I | apply emits_raise].
Qed.

Lemma sell_one_emits env fuel market_price total pos :
  emits (sell_one env fuel market_price total pos)
        (sell_event [pos]) (fun _ => True).
Proof.
  destruct pos as [[c q] exchange]. unfold sell_one.
  eapply emits_bind; [apply emits_lift; intros; exact I |].
  intros [ignored close_time] _.
  eapply emits_bind.
  - eapply emits_weaken; [apply wait_for_close_emits | | intros a H; exact H].
    intros e [-> | ->]; exact I.
  - intros _ _.
    eapply emits_weaken; [apply sell_position_emits | | intros a H; exact H].
    intros e [-> | ->]; [| exact I].
    exists q, exchange. split; [now left | reflexivity].
Qed.

Lemma sell_event_mono (ps ps' : list Position) (e : event) :
  (forall pos, In pos ps -> In pos ps') -> sell_event ps e -> sell_event ps' e.
Proof.
  intros Hsub. destruct e; cbn; try tauto.
  intros (q & exchange & Hin & Ho). exists q, exchange. split; auto.
Qed.

Lemma sell_loop_emits env fuel market_price positions :
  forall total,
    emits (sell_loop env fuel market_price total positions)
          (sell_event positions) (fun _ => True).
Proof.
  induction positions as [| pos rest IH]; intros total; cbn [sell_loop].
  - apply emits_ret. exact I.
  - eapply emits_bind.
    + eapply emits_weaken; [apply sell_one_emits | | intros a H; exact H].
      intros e. apply sell_event_mono. intros x [<- | []]. now left.
    + intros total' _.
      eapply emits_weaken; [apply IH | | intros a H; exact H].
      intros e. apply sell_event_mono. intros x Hx. now right.
Qed.

Lemma buy_events_trading c q os :
  smart c -> Forall trading_event (buy_events c q os).
Proof.
  intros Hc. unfold buy_events, buy_warning.
  destruct (0 <? q); [destruct (accepted (status os)) |]; cbn;
    repeat (apply Forall_cons; [first [exact Hc | exact I] |]);
    apply Forall_nil.
Qed.

Lemma buy_one_emits env alloc s positions :
  Forall smart_position positions ->
  emits (buy_one env alloc s positions) trading_event
        (fun r => Forall smart_position (snd r)).
Proof.
  intros Hps st. destruct s as [stock exchange].
  destruct (buy_one_spec env alloc stock exchange positions st)
    as (st' & Hrun & Htr & _).
  rewrite Hrun. cbn [fst snd]. eexists. split; [exact Htr |]. split.
  - apply buy_events_trading. split; reflexivity.
  - intros a Ha. inversion Ha; subst; clear Ha. cbn [snd].
    destruct (0 <? _); [| exact Hps].
    apply Forall_app. split; [exact Hps |].
    constructor; [split; reflexivity | constructor].
Qed.

Lemma buy_loop_emits env alloc stocks :
  forall market_price positions,
    Forall smart_position positions ->
    emits (buy_loop env alloc stocks market_price positions) trading_event
          (fun r => Forall smart_position (snd r)).
Proof.
  induction stocks as [| s rest IH]; intros mp ps Hps; cbn [buy_loop].
  - apply emits_ret. exact Hps.
  - eapply emits_bind; [apply buy_one_emits; exact Hps |].
    intros [p ps'] Hps'. apply IH. exact Hps'.
Qed.

Lemma sell_event_trading positions e :
  Forall smart_position positions -> sell_event positions e -> trading_event e.
Proof.
  intros Hps. destruct e; cbn; try tauto.
  intros (q & exchange & Hin & _).
  rewrite Forall_forall in Hps. exact (Hps _ Hin).
Qed.

Lemma allocate_and_trade_emits env fuel stocks available_funds :
  emits (allocation_per_stock <-
           lift (py_truediv available_funds
                            (inject_Z (Z.of_nat (List.length stocks)))) ;;
         '(market_price, positions) <-
           buy_loop env allocation_per_stock stocks None [] ;;
         sell_loop env fuel market_price 0 positions)
        trading_event (fun _ => True).
Proof.
  eapply emits_bind; [apply emits_lift; intros; exact I |]. intros alloc _.
  eapply emits_bind; [apply buy_loop_emits; constructor |].
  intros [mp ps] Hps. cbn [snd] in Hps.
  eapply emits_weaken; [apply sell_loop_emits | | intros a H; exact H].
  intros e. apply sell_event_trading. exact Hps.
Qed.

(** The account summary is read first, and only trading events follow. *)
Lemma trade_day_trace env fuel reserve stocks st :
  exists evs,
    trace (snd (trade_day env fuel reserve stocks st))
    = trace st ++ EAccountSummary :: evs
    /\ Forall trading_event evs.
Proof.
  destruct (allocate_and_trade_emits env fuel stocks
              ((net_liquidation env - reserve) * (95 # 100))%Q
              (emit EAccountSummary st)) as (evs & Htr & Hall & _).
  exists evs. split; [| exact Hall].
  unfold trade_day, get_available_funds.
  unfold bind at 1 2. cbn [tell ret].
  rewrite Htr. cbn [emit trace]. rewrite <- app_assoc. reflexivity.
Qed.

Lemma orders_of_app (a b : list event) :
  orders_of (a ++ b) = orders_of a ++ orders_of b.
Proof. unfold orders_of. apply flat_map_app. Qed.

Lemma orders_of_trading (evs : list event) :
  Forall trading_event evs -> Forall (fun co => smart (fst co)) (orders_of evs).
Proof.
  induction 1 as [| e evs He _ IH]; [constructor |].
  destruct e; cbn; try exact IH. constructor; [exact He | exact IH].
Qed.

Lemma buy_one_exchange_blind env alloc stock e1 e2 ps1 ps2 st :
  map fst ps1 = map fst ps2 ->
  exists p ps1' ps2' st',
    buy_one env alloc (stock, e1) ps1 st = (Ok (p, ps1'), st')
    /\ buy_one env alloc (stock, e2) ps2 st = (Ok (p, ps2'), st')
    /\ map fst ps1' = map fst ps2'.
Proof.
  intros Hps.
  unfold buy_one, bind, tell, req_mkt_data, sleep, place_order, log, ret, emit.
  cbn.
  destruct (0 <? share_quantity alloc
                   (reference_price (market_data env (n_mkt st)))); cbn.
  - destruct (accepted (status (order_status env (n_order st)))); cbn;
      do 4 eexists; (split; [reflexivity | split; [reflexivity |]]);
      rewrite !map_app; cbn; f_equal; exact Hps.
  - do 4 eexists; (split; [reflexivity | split; [reflexivity |]]); exact Hps.
Qed.

Lemma buy_loop_exchange_blind env alloc stocks1 :
  forall stocks2 market_price ps1 ps2 st,
    map fst stocks1 = map fst stocks2 ->
    map fst ps1 = map fst ps2 ->
    exists p ps1' ps2' st',
      buy_loop env alloc stocks1 market_price ps1 st = (Ok (p, ps1'), st')
      /\ buy_loop env alloc stocks2 market_price ps2 st = (Ok (p, ps2'), st')
      /\ map fst ps1' = map fst ps2'.
Proof.
  induction stocks1 as [| [stock e1] rest1 IH];
    intros [| [stock2 e2] rest2] mp ps1 ps2 st Hst Hps; try discriminate.
  - exists mp, ps1, ps2, st. repeat split; assumption.
  - cbn in Hst. injection Hst as <- Hrest.
    destruct (buy_one_exchange_blind env alloc stock e1 e2 ps1 ps2 st Hps)
      as (p & ps1' & ps2' & st' & H1 & H2 & Hps').
    cbn [buy_loop]. erewrite !bind_ok by eassumption.
    apply IH; assumption.
Qed.

(** C10.  Every order that the trading part of [main] places, buy or sell,
    is on a contract whose venue is SMART and whose currency is USD; and the
    exchange field of a ticker has no effect on the buy loop beyond being
    copied into the position: two ticker lists with the same symbols lead to
    the same reference price, the same final state (hence the same orders
    on the same contracts) and positions with the same contracts and
    quantities. *)
Theorem C10_orders_on_smart_usd_contracts :
  (forall env fuel reserve stocks st,
      exists evs,
        trace (snd (trade_day env fuel reserve stocks st)) = trace st ++ evs
        /\ Forall (fun co => venue (fst co) = "SMART" /\ currency (fst co) = "USD")
                  (orders_of evs))
  /\ (forall env alloc stocks1 stocks2 st,
        map fst stocks1 = map fst stocks2 ->
        exists p ps1 ps2 st',
          buy_loop env alloc stocks1 None [] st = (Ok (p, ps1), st')
          /\ buy_loop env alloc stocks2 None [] st = (Ok (p, ps2), st')
          /\ map fst ps1 = map fst ps2).
Proof.
  split.
  - intros env fuel reserve stocks st.
    destruct (trade_day_trace env fuel reserve stocks st) as (evs & Htr & Hall).
    exists (EAccountSummary :: evs). split; [exact Htr |].
    cbn. apply orders_of_trading in Hall. exact Hall.
  - intros env alloc stocks1 stocks2 st Hst.
    apply buy_loop_exchange_blind; [exact Hst | reflexivity].
Qed.

Lemma C10_orders_on_smart_usd_contracts_witness :
  exists p ps1 ps2 st',
    buy_loop (sample_env (mk_status "Filled" 260)) 5000
             [("AAPL", "NASDAQ"); ("SHOP", "TSX")] None [] (init_state nine_thirty)
    = (Ok (p, ps1), st')
    /\ buy_loop (sample_env (mk_status "Filled" 260)) 5000
                [("AAPL", "LSE"); ("SHOP", "TSE")] None [] (init_state nine_thirty)
       = (Ok (p, ps2), st')
    /\ map fst ps1 = map fst ps2.
Proof.
  apply (proj2 C10_orders_on_smart_usd_contracts).
  reflexivity.
Defined.

(** ** Runs in which no ticker can be bought *)

Lemma main_split env fuel st :
  main env fuel st
  = bind (startup env)
         (fun stocks => bind (trade_day env fuel 0 stocks) (reconcile 0)) st.
Proof.
  unfold main, startup, bind.
  destruct (connect_ib env st) as [[[] | e] st1]; [| reflexivity].
  destruct (close_all_positions env st1) as [[[] | e] st2]; [| reflexivity].
  destruct (fetch_trending_stocks env 3 5 st2) as [[stocks | e] st3]; reflexivity.
Qed.

Lemma try_fetch_nonempty r stocks : try_fetch r = Fetched stocks -> stocks <> [].
Proof.
  destruct r as [| | | | [| [| c s] | h] | before | results]; cbn -[firstn];
    try discriminate.
  - destruct (parse_items _); discriminate.
  - destruct (parse_items _) as [[| s l] | e]; try discriminate.
    intros H. inversion H. discriminate.
Qed.

Lemma fetch_loop_nonempty env n delay :
  forall st stocks st',
    fetch_loop env n delay st = (Ok stocks, st') -> stocks <> [].
Proof.
  induction n as [| n IH]; intros st stocks st'; cbn [fetch_loop].
  - discriminate.
  - unfold bind at 1. cbn [http_get].
    destruct (try_fetch (trend env (n_http st))) as [l | c | e] eqn:E.
    + intros H. inversion H; subst. eapply try_fetch_nonempty; eassumption.
    + unfold bind, log, tell, sleep, emit. cbn.
      destruct (delay <? 0); [discriminate |]. apply IH.
    + discriminate.
Qed.

Lemma startup_nonempty env st stocks st1 :
  startup env st = (Ok stocks, st1) -> stocks <> [].
Proof.
  unfold startup. intros H.
  apply bind_inv_ok in H. destruct H as (u1 & s1 & _ & H).
  apply bind_inv_ok in H. destruct H as (u2 & s2 & _ & H).
  eapply fetch_loop_nonempty. exact H.
Qed.

Lemma allocation_defined (funds : Q) (stocks : list (string * string)) :
  stocks <> [] ->
  py_truediv funds (inject_Z (Z.of_nat (List.length stocks)))
  = Ok (funds / inject_Z (Z.of_nat (List.length stocks)))%Q.
Proof.
  intros Hne. unfold py_truediv.
  destruct (Qeq_bool _ 0) eqn:E; [| reflexivity].
  apply Qeq_bool_iff in E. unfold Qeq in E. cbn in E.
  destruct stocks; [contradiction | cbn in E; lia].
Qed.

Lemma buy_one_idle env alloc stock exchange positions st :
  share_quantity alloc (reference_price (market_data env (n_mkt st))) <= 0 ->
  exists st',
    buy_one env alloc (stock, exchange) positions st
    = (Ok (reference_price (market_data env (n_mkt st)), positions), st')
    /\ trace st'
       = trace st ++ [EQualify (Stock stock "SMART" "USD");
                      EReqMktData (Stock stock "SMART" "USD"); ESleep 1]
    /\ n_mkt st' = S (n_mkt st).
Proof.
  intros Hq.
  destruct (buy_one_spec env alloc stock exchange positions st)
    as (st' & Hrun & Htr & Hmkt & _).
  apply Z.ltb_ge in Hq. unfold buy_events in Htr. rewrite Hq in Hrun, Htr.
  exists st'. split; [exact Hrun |]. split; [| exact Hmkt].
  rewrite Htr. reflexivity.
Qed.

Lemma buy_loop_idle env alloc stocks :
  forall market_price positions st,
    (forall i, (i < List.length stocks)%nat ->
       share_quantity alloc (reference_price (market_data env (n_mkt st + i))) <= 0) ->
    exists market_price' st',
      buy_loop env alloc stocks market_price positions st
      = (Ok (market_price', positions), st')
      /\ orders_of (trace st') = orders_of (trace st).
Proof.
  induction stocks as [| [stock exchange] rest IH]; intros mp ps st Hq.
  - exists mp, st. split; reflexivity.
  - destruct (buy_one_idle env alloc stock exchange ps st) as (st1 & Hrun & Htr & Hmkt).
    { specialize (Hq 0%nat). rewrite Nat.add_0_r in Hq. apply Hq. cbn. lia. }
    destruct (IH (Some (reference_price (market_data env (n_mkt st)))) ps st1)
      as (mp' & st' & Hloop & Hord).
    { intros i Hi. rewrite Hmkt.
      replace (S (n_mkt st) + i)%nat with (n_mkt st + S i)%nat by lia.
      apply Hq. cbn. lia. }
    exists mp', st'. cbn [buy_loop]. erewrite bind_ok by exact Hrun.
    split; [exact Hloop |].
    rewrite Hord, Htr, orders_of_app. cbn. apply app_nil_r.
Qed.

Lemma trade_day_idle env fuel reserve stocks st :
  stocks <> [] ->
  (forall i, (i < List.length stocks)%nat ->
     share_quantity (per_stock_budget env reserve stocks)
                    (reference_price (market_data env (n_mkt st + i))) <= 0) ->
  exists st',
    trade_day env fuel reserve stocks st = (Ok 0%Q, st')
    /\ orders_of (trace st') = orders_of (trace st).
Proof.
  intros Hne Hq.
  destruct (buy_loop_idle env (per_stock_budget env reserve stocks) stocks
              None [] (emit EAccountSummary st) Hq)
    as (mp' & st' & Hloop & Hord).
  exists st'. unfold trade_day, get_available_funds.
  unfold bind at 1 2. cbn [tell ret].
  rewrite allocation_defined by exact Hne. cbn [lift].
  unfold bind at 1. cbn [ret].
  fold (per_stock_budget env reserve stocks).
  erewrite bind_ok by exact Hloop. cbn [sell_loop ret].
  split; [reflexivity |].
  rewrite Hord. cbn [emit trace]. rewrite orders_of_app. cbn. apply app_nil_r.
Qed.

(** C4, as the code has it.  With a positive price the quantity is the
    budget divided by the price and truncated toward zero, which is the
    floor whenever the budget is not negative; with a price that is not
    positive it is 0.  A ticker whose quantity is not positive gets no order
    and no position; the sell loop places orders for entries of the
    position list only; and when no ticker of a non-empty list has a
    positive quantity, [main] places no order after the startup and returns
    with a total profit of 0 and a daily reserve equal to 0. *)
Theorem C4_quantity_and_idle_run :
  (forall alloc price,
      (0 < price)%Q ->
      share_quantity alloc price = py_int (alloc / price)
      /\ ((0 <= alloc)%Q -> share_quantity alloc price = Qfloor (alloc / price)))
  /\ (forall alloc price, (price <= 0)%Q -> share_quantity alloc price = 0)
  /\ (forall env alloc stock exchange positions st,
        share_quantity alloc (reference_price (market_data env (n_mkt st))) <= 0 ->
        exists st',
          buy_one env alloc (stock, exchange) positions st
          = (Ok (reference_price (market_data env (n_mkt st)), positions), st')
          /\ orders_of (trace st') = orders_of (trace st))
  /\ (forall env fuel market_price total positions,
        emits (sell_loop env fuel market_price total positions)
              (sell_event positions) (fun _ => True))
  /\ (forall env fuel st stocks st1,
        startup env st = (Ok stocks, st1) ->
        (forall i, (i < List.length stocks)%nat ->
           share_quantity (per_stock_budget env 0 stocks)
                          (reference_price (market_data env (n_mkt st1 + i))) <= 0) ->
        exists s st2,
          main env fuel st = (Ok s, st2)
          /\ total_profit s = 0%Q
          /\ (daily_reserve s == 0)%Q
          /\ orders_of (trace st2) = orders_of (trace st1)).
Proof.
  split; [| split; [| split; [| split]]].
  - intros alloc price Hp. split.
    + now apply share_quantity_positive_price.
    + intros Ha. now apply share_quantity_floor.
  - apply share_quantity_no_price.
  - intros env alloc stock exchange positions st Hq.
    destruct (buy_one_idle env alloc stock exchange positions st Hq)
      as (st' & Hrun & Htr & _).
    exists st'. split; [exact Hrun |].
    rewrite Htr, orders_of_app. cbn. apply app_nil_r.
  - intros. apply sell_loop_emits.
  - intros env fuel st stocks st1 Hstart Hq.
    destruct (trade_day_idle env fuel 0 stocks st1
                (startup_nonempty _ _ _ _ Hstart) Hq) as (st2 & Hday & Hord).
    rewrite main_split. erewrite bind_ok by exact Hstart.
    erewrite bind_ok by exact Hday.
    unfold reconcile, bind, log, tell, ret. cbn.
    do 2 eexists. split; [reflexivity |]. cbn.
    repeat split.
    rewrite <- Hord. unfold emit. cbn.
    rewrite !orders_of_app. cbn. now rewrite !app_nil_r.
Qed.

Lemma C4_quantity_and_idle_run_witness :
  share_quantity 5000 250 = Qfloor (5000 / 250)
  /\ share_quantity 5000 0 = 0
  /\ exists s st2,
       main broke_env a_day_of_polls (init_state nine_thirty) = (Ok s, st2)
       /\ total_profit s = 0%Q
       /\ (daily_reserve s == 0)%Q
       /\ orders_of (trace st2) = [].
Proof.
  destruct C4_quantity_and_idle_run as (Hq & H0 & _ & _ & Hrun).
  split; [| split].
  - apply (Hq 5000%Q 250%Q); reflexivity || discriminate.
  - apply (H0 5000%Q 0%Q). discriminate.
  - apply (Hrun broke_env a_day_of_polls (init_state nine_thirty)
                [("AAPL", "NASDAQ"); ("SHOP", "TSX")]
                (snd (startup broke_env (init_state nine_thirty)))).
    + reflexivity.
    + intros [| [| i]] Hi; cbn in Hi; try lia; vm_compute; discriminate.
Defined.

(** C4 as stated fails for a negative budget: with a budget of -1 and a
    price of 2 the quantity is 0, the floor of -1/2 is -1. *)
Lemma C4_quantity_is_not_the_floor :
  (0 < 2)%Q
  /\ share_quantity (-1) 2 = 0
  /\ Qfloor (-1 / 2) = -1
  /\ share_quantity (-1) 2 <> Qfloor (-1 / 2).
Proof. repeat split. discriminate. Qed.

(** ** The allocation *)

Lemma shares_total_scales (share : Q) (stocks : list (string * string)) :
  (shares_total share stocks
   == inject_Z (Z.of_nat (List.length stocks)) * share)%Q.
Proof.
  induction stocks as [| s rest IH]; unfold shares_total in *; cbn [map fold_right List.length].
  - cbn. ring.
  - rewrite IH, Nat2Z.inj_succ, <- Z.add_1_r, inject_Z_plus. ring.
Qed.

Lemma count_is_nonzero (stocks : list (string * string)) :
  stocks <> [] -> ~ (inject_Z (Z.of_nat (List.length stocks)) == 0)%Q.
Proof.
  intros Hne E. unfold Qeq in E. cbn in E.
  destruct stocks; [contradiction | cbn in E; lia].
Qed.

Lemma trading_events_no_summary (evs : list event) :
  Forall trading_event evs ->
  count_event is_account_summary evs = 0%nat
  /\ count_event is_summary evs = 0%nat.
Proof.
  unfold count_event.
  induction 1 as [| e evs He _ [IH1 IH2]]; [split; reflexivity |].
  destruct e as [| | | | | | | | | m |]; cbn in *; try contradiction; auto.
  destruct m; cbn in *; try contradiction; auto.
Qed.

(** C5.  [get_available_funds] returns (net liquidation - reserve) * 0.95
    and reads the account summary once; in a trading day it is called once,
    before anything else; the budget of each ticker of a non-empty list is
    that amount divided by the number of tickers, the same for every
    iteration of the buy loop, and the budgets add up to the amount. *)
Theorem C5_even_split_of_investable_capital :
  (forall env reserve st,
      get_available_funds env reserve st
      = (Ok ((net_liquidation env - reserve) * (95 # 100))%Q,
         emit EAccountSummary st))
  /\ (forall env fuel reserve stocks st,
        exists evs,
          trace (snd (trade_day env fuel reserve stocks st))
          = trace st ++ EAccountSummary :: evs
          /\ count_event is_account_summary evs = 0%nat)
  /\ (forall env fuel reserve stocks st,
        stocks <> [] ->
        trade_day env fuel reserve stocks st
        = bind (buy_loop env (per_stock_budget env reserve stocks) stocks None [])
               (fun r => sell_loop env fuel (fst r) 0 (snd r))
               (emit EAccountSummary st))
  /\ (forall env reserve stocks,
        stocks <> [] ->
        (shares_total (per_stock_budget env reserve stocks) stocks
         == (net_liquidation env - reserve) * (95 # 100))%Q).
Proof.
  split; [| split; [| split]].
  - reflexivity.
  - intros env fuel reserve stocks st.
    destruct (trade_day_trace env fuel reserve stocks st) as (evs & Htr & Hall).
    exists evs. split; [exact Htr |]. now apply trading_events_no_summary.
  - intros env fuel reserve stocks st Hne.
    unfold trade_day, get_available_funds.
    unfold bind at 1 2. cbn [tell ret].
    rewrite allocation_defined by exact Hne. cbn [lift].
    unfold bind at 1. cbn [ret].
    fold (per_stock_budget env reserve stocks).
    unfold bind. destruct (buy_loop _ _ _ _ _ _) as [[[mp ps] | e] st1]; reflexivity.
  - intros env reserve stocks Hne.
    rewrite shares_total_scales. unfold per_stock_budget.
    apply Qmult_div_r. now apply count_is_nonzero.
Qed.

Lemma C5_even_split_of_investable_capital_witness :
  (shares_total (per_stock_budget (sample_env (mk_status "Filled" 260)) 0
                                  [("AAPL", "NASDAQ"); ("SHOP", "TSX")])
                [("AAPL", "NASDAQ"); ("SHOP", "TSX")]
   == ((200000 # 19) - 0) * (95 # 100))%Q.
Proof.
  apply (proj2 (proj2 (proj2 C5_even_split_of_investable_capital))
           (sample_env (mk_status "Filled" 260)) 0%Q
           [("AAPL", "NASDAQ"); ("SHOP", "TSX")]).
  discriminate.
Defined.

(** The scenario of the specification: 10000 over two tickers is 5000 each,
    20 shares of AAPL at 250 and 55 shares of SHOP at 90. *)
Example allocation_scenario :
  (per_stock_budget (sample_env (mk_status "Filled" 260)) 0
                    [("AAPL", "NASDAQ"); ("SHOP", "TSX")] == 5000)%Q
  /\ share_quantity 5000 250 = 20
  /\ share_quantity 5000 90 = 55.
Proof. repeat split. Qed.

(** ** Bounded retries *)

Lemma fetch_loop_retries env delay causes :
  forall n st,
    0 <= delay ->
    (List.length causes <= n)%nat ->
    (forall i c, nth_error causes i = Some c ->
                 try_fetch (trend env (n_http st + i)) = Retry c) ->
    exists st1,
      fetch_loop env n delay st
      = fetch_loop env (n - List.length causes) delay st1
      /\ trace st1 = trace st ++ failed_attempts causes delay
      /\ n_http st1 = (n_http st + List.length causes)%nat.
Proof.
  induction causes as [| c rest IH]; intros n st Hd Hn Hfail.
  - exists st. cbn. rewrite Nat.sub_0_r, app_nil_r, Nat.add_0_r. auto.
  - destruct n as [| n]; [cbn in Hn; lia |].
    assert (H0 : try_fetch (trend env (n_http st)) = Retry c).
    { specialize (Hfail 0%nat c eq_refl). now rewrite Nat.add_0_r in Hfail. }
    assert (Hsleep : (delay <? 0) = false) by (apply Z.ltb_ge; exact Hd).
    cbn [fetch_loop]. unfold bind at 1. cbn [http_get]. rewrite H0.
    unfold bind at 1 2. unfold log, tell, sleep, emit. cbn. rewrite Hsleep.
    match goal with
    | |- exists st1, fetch_loop env n delay ?s = _ /\ _ =>
        destruct (IH n s Hd) as (st1 & Hrun & Htr & Hcalls)
    end.
    + cbn in Hn. lia.
    + intros i c' Hi. cbn [n_http].
      replace (S (n_http st) + i)%nat with (n_http st + S i)%nat by lia.
      apply Hfail. exact Hi.
    + exists st1. split; [exact Hrun |]. cbn in Htr, Hcalls. split.
      * rewrite Htr. cbn. rewrite <- !app_assoc. reflexivity.
      * rewrite Hcalls. cbn. lia.
Qed.

Lemma count_http_get_failed (causes : list cause) (delay : Z) :
  count_event is_http_get (failed_attempts causes delay) = List.length causes.
Proof.
  unfold count_event. induction causes as [| c rest IH]; [reflexivity |].
  cbn. f_equal. exact IH.
Qed.

Lemma connect_loop_fails env n :
  forall st,
    (forall i, (i < n)%nat -> connect_ok env (n_connect st + i) = false) ->
    exists st',
      connect_loop env n st = (Raise CONNECT_FAILED, st')
      /\ trace st'
         = trace st ++ List.concat (repeat [EConnect; ELog LogConnectFailed; ESleep 5] n)
      /\ n_connect st' = (n_connect st + n)%nat.
Proof.
  induction n as [| n IH]; intros st Hfail.
  - exists st. cbn. rewrite app_nil_r, Nat.add_0_r. auto.
  - assert (H0 : connect_ok env (n_connect st) = false).
    { specialize (Hfail 0%nat). rewrite Nat.add_0_r in Hfail. apply Hfail. lia. }
    cbn [connect_loop]. unfold bind at 1. cbn [ib_connect]. rewrite H0.
    unfold bind at 1 2. unfold log, tell, sleep, emit. cbn.
    match goal with
    | |- exists st', connect_loop env n ?s = _ /\ _ =>
        destruct (IH s) as (st' & Hrun & Htr & Hcalls)
    end.
    + intros i Hi. cbn [n_connect].
      replace (S (n_connect st) + i)%nat with (n_connect st + S i)%nat by lia.
      apply Hfail. lia.
    + exists st'. split; [exact Hrun |]. cbn in Htr, Hcalls. split.
      * rewrite Htr. cbn. rewrite <- !app_assoc. reflexivity.
      * rewrite Hcalls. lia.
Qed.

(** C6, as the code has it.  When fewer than [retries] attempts fail and the
    next one succeeds (with a delay that is not negative),
    [fetch_trending_stocks] returns the list of the successful attempt; the
    trace is, for each failure, the request, the log line and a pause of
    [delay] seconds, followed by the last request: one request more than
    there were failures. *)
Theorem C6_fetch_succeeds_after_fewer_failures :
  forall env retries delay causes stocks st,
    Z.of_nat (List.length causes) < retries ->
    0 <= delay ->
    (forall i c, nth_error causes i = Some c ->
                 try_fetch (trend env (n_http st + i)) = Retry c) ->
    try_fetch (trend env (n_http st + List.length causes)) = Fetched stocks ->
    exists st',
      fetch_trending_stocks env retries delay st = (Ok stocks, st')
      /\ trace st' = trace st ++ failed_attempts causes delay ++ [EHttpGet]
      /\ n_http st' = (n_http st + (List.length causes + 1))%nat
      /\ count_event is_http_get (failed_attempts causes delay ++ [EHttpGet])
         = (List.length causes + 1)%nat.
Proof.
  intros env retries delay causes stocks st Hn Hd Hfail Hok.
  destruct (fetch_loop_retries env delay causes (Z.to_nat retries) st Hd)
    as (st1 & Hrun & Htr & Hcalls); [lia | exact Hfail |].
  unfold fetch_trending_stocks. rewrite Hrun.
  destruct (Z.to_nat retries - List.length causes)%nat as [| m] eqn:Em; [lia |].
  cbn [fetch_loop]. unfold bind at 1. cbn [http_get].
  rewrite Hcalls, Hok. cbn [ret].
  eexists. split; [reflexivity |]. cbn [trace n_http].
  split; [rewrite Htr, <- app_assoc; reflexivity |].
  split; [lia |].
  unfold count_event. rewrite filter_app, length_app.
  fold (count_event is_http_get (failed_attempts causes delay)).
  rewrite count_http_get_failed. reflexivity.
Qed.

Lemma C6_fetch_succeeds_after_fewer_failures_witness :
  exists st',
    fetch_trending_stocks (flaky_env 2) 3 0 (init_state nine_thirty)
    = (Ok [("AAPL", "NASDAQ"); ("SHOP", "TSX")], st')
    /\ trace st'
       = [EHttpGet; ELog (LogFetchFailed CauseRequest 0); ESleep 0;
          EHttpGet; ELog (LogFetchFailed CauseRequest 0); ESleep 0;
          EHttpGet]
    /\ n_http st' = 3%nat
    /\ count_event is_http_get
         (failed_attempts [CauseRequest; CauseRequest] 0 ++ [EHttpGet]) = 3%nat.
Proof.
  apply (C6_fetch_succeeds_after_fewer_failures
           (flaky_env 2) 3 0 [CauseRequest; CauseRequest]
           [("AAPL", "NASDAQ"); ("SHOP", "TSX")] (init_state nine_thirty)).
  - reflexivity.
  - discriminate.
  - intros [| [| i]] c Hi; cbn in Hi; inversion Hi; subst; try reflexivity.
    destruct i; discriminate.
  - reflexivity.
Defined.

(** C6 as stated fails when the number of failures equals [retries]: the
    source fails three times and would answer the fourth request, but with
    [retries] = 3 the function raises after the third request. *)
Lemma C6_three_failures_exhaust_three_retries :
  map (fun i => try_fetch (trend (flaky_env 3) i)) [0; 1; 2; 3]%nat
  = [Retry CauseRequest; Retry CauseRequest; Retry CauseRequest;
     Fetched [("AAPL", "NASDAQ"); ("SHOP", "TSX")]]
  /\ fst (fetch_trending_stocks (flaky_env 3) 3 0 (init_state nine_thirty))
     = Raise FETCH_FAILED
  /\ n_http (snd (fetch_trending_stocks (flaky_env 3) 3 0 (init_state nine_thirty)))
     = 3%nat.
Proof. repeat split. Qed.

(** ** The startup *)

Lemma connect_loop_emits env n :
  emits (connect_loop env n) startup_event (fun _ => True).
Proof.
  induction n as [| n IH]; cbn [connect_loop]; [apply emits_raise |].
  eapply emits_bind with (R := fun _ => True).
  - intros st. exists [EConnect]. cbn. repeat split; now constructor.
  - intros [|] _; [apply emits_ret; exact I |].
    eapply emits_bind; [apply emits_tell; exact I |]. intros _ _.
    eapply emits_bind; [apply emits_sleep; exact I |]. intros _ _. exact IH.
Qed.

Lemma connect_loop_n_http env n :
  forall st, n_http (snd (connect_loop env n st)) = n_http st.
Proof.
  induction n as [| n IH]; intros st; [reflexivity |].
  cbn [connect_loop]. unfold bind at 1. cbn [ib_connect].
  destruct (connect_ok env (n_connect st)); [reflexivity |].
  unfold bind at 1 2. unfold log, tell, sleep, emit. cbn. now rewrite IH.
Qed.

Lemma liquidate_ok ps :
  forall st,
    exists st',
      liquidate ps st = (Ok tt, st')
      /\ n_http st' = n_http st
      /\ trace st'
         = trace st ++ map (fun cq => EPlaceOrder (fst cq) (MarketOrder SELL (snd cq))) ps.
Proof.
  induction ps as [| [c q] rest IH]; intros st.
  - exists st. cbn. rewrite app_nil_r. auto.
  - cbn [liquidate]. unfold bind at 1. cbn [place_order].
    match goal with
    | |- exists st', liquidate rest ?s = _ /\ _ =>
        destruct (IH s) as (st' & Hrun & Hhttp & Htr)
    end.
    exists st'. split; [exact Hrun |]. split; [exact Hhttp |].
    rewrite Htr. cbn. rewrite <- app_assoc. reflexivity.
Qed.

Lemma close_all_positions_ok env st :
  exists st',
    close_all_positions env st = (Ok tt, st')
    /\ n_http st' = n_http st
    /\ trace st'
       = trace st
         ++ EPositions
            :: map (fun cq => EPlaceOrder (fst cq) (MarketOrder SELL (snd cq))) (held env)
         ++ [ELog LogClosedAll].
Proof.
  destruct (liquidate_ok (held env) (emit EPositions st)) as (st1 & Hrun & Hhttp & Htr).
  unfold close_all_positions. unfold bind at 1. cbn [tell].
  erewrite bind_ok by exact Hrun. unfold log, tell. cbn [emit].
  eexists. split; [reflexivity |]. unfold emit in *. cbn [n_http trace] in *.
  split; [exact Hhttp |].
  rewrite Htr. rewrite <- !app_assoc. reflexivity.
Qed.

Lemma close_all_positions_emits env :
  emits (close_all_positions env) startup_event (fun _ => True).
Proof.
  intros st. destruct (close_all_positions_ok env st) as (st' & Hrun & _ & Htr).
  rewrite Hrun. cbn [fst snd]. eexists. split; [exact Htr |].
  split; [| intros; exact I].
  constructor; [exact I |]. apply Forall_app. split.
  - apply Forall_forall. intros e He. apply in_map_iff in He.
    destruct He as (cq & <- & _). reflexivity.
  - constructor; [exact I | constructor].
Qed.

Lemma fetch_loop_emits env n delay :
  emits (fetch_loop env n delay) startup_event (fun _ => True).
Proof.
  induction n as [| n IH]; cbn [fetch_loop]; [apply emits_raise |].
  eapply emits_bind with (R := fun _ => True).
  - intros st. exists [EHttpGet]. cbn. repeat split; now constructor.
  - intros r _. destruct (try_fetch r).
    + apply emits_ret. exact I.
    + eapply emits_bind; [apply emits_tell; exact I |]. intros _ _.
      eapply emits_bind; [apply emits_sleep; exact I |]. intros _ _. exact IH.
    + apply emits_raise.
Qed.

Lemma startup_emits env :
  emits (startup env) startup_event (fun _ => True).
Proof.
  unfold startup.
  eapply emits_bind; [apply connect_loop_emits |]. intros _ _.
  eapply emits_bind; [apply close_all_positions_emits |]. intros _ _.
  apply fetch_loop_emits.
Qed.

Lemma orders_with_app s (a b : list event) :
  orders_with s (a ++ b) = orders_with s a ++ orders_with s b.
Proof. unfold orders_with. now rewrite orders_of_app, filter_app. Qed.

Lemma startup_events_no_buy (evs : list event) :
  Forall startup_event evs ->
  orders_with BUY evs = [] /\ count_event is_summary evs = 0%nat.
Proof.
  unfold orders_with, count_event.
  induction 1 as [| e evs He _ [IH1 IH2]]; [split; reflexivity |].
  destruct e as [| | | | | | c o | | | m |]; cbn in *; try contradiction; auto.
  - rewrite He. auto.
  - destruct m; cbn in *; try contradiction; auto.
Qed.

Lemma count_event_app p (a b : list event) :
  count_event p (a ++ b) = (count_event p a + count_event p b)%nat.
Proof. unfold count_event. now rewrite filter_app, length_app. Qed.

Lemma startup_raises_main_raises env fuel st e st' :
  startup env st = (Raise e, st') ->
  main env fuel st = (Raise e, st')
  /\ orders_with BUY (trace st') = orders_with BUY (trace st).
Proof.
  intros H. split.
  - rewrite main_split. now apply bind_raise.
  - destruct (startup_emits env st) as (evs & Htr & Hall & _).
    rewrite H in Htr. cbn [snd] in Htr.
    rewrite Htr, orders_with_app.
    destruct (startup_events_no_buy evs Hall) as [-> _]. apply app_nil_r.
Qed.

(** C7.  When each of the [retries] attempts fails, [fetch_trending_stocks]
    raises its final exception after exactly [retries] requests; when each
    of the three connection attempts fails, [connect_ib] raises its final
    exception after exactly three attempts.  In [main] a failed connection
    ends the run with no order at all, and a fetch that fails three times
    ends it with no buy order placed. *)
Theorem C7_exhausted_retries_abort_before_buying :
  (forall env retries delay causes st,
      List.length causes = Z.to_nat retries ->
      0 <= delay ->
      (forall i c, nth_error causes i = Some c ->
                   try_fetch (trend env (n_http st + i)) = Retry c) ->
      exists st',
        fetch_trending_stocks env retries delay st = (Raise FETCH_FAILED, st')
        /\ trace st' = trace st ++ failed_attempts causes delay
        /\ n_http st' = (n_http st + Z.to_nat retries)%nat)
  /\ (forall env st,
        (forall i, (i < 3)%nat -> connect_ok env (n_connect st + i) = false) ->
        exists st',
          connect_ib env st = (Raise CONNECT_FAILED, st')
          /\ n_connect st' = (n_connect st + 3)%nat
          /\ orders_of (trace st') = orders_of (trace st))
  /\ (forall env fuel st,
        (forall i, (i < 3)%nat -> connect_ok env (n_connect st + i) = false) ->
        exists st',
          main env fuel st = (Raise CONNECT_FAILED, st')
          /\ n_connect st' = (n_connect st + 3)%nat
          /\ orders_of (trace st') = orders_of (trace st))
  /\ (forall env fuel st causes,
        fst (connect_ib env st) = Ok tt ->
        List.length causes = 3%nat ->
        (forall i c, nth_error causes i = Some c ->
                     try_fetch (trend env (n_http st + i)) = Retry c) ->
        exists st',
          main env fuel st = (Raise FETCH_FAILED, st')
          /\ n_http st' = (n_http st + 3)%nat
          /\ orders_with BUY (trace st') = orders_with BUY (trace st)).
Proof.
  assert (Hfetch : forall env retries delay causes st,
      List.length causes = Z.to_nat retries ->
      0 <= delay ->
      (forall i c, nth_error causes i = Some c ->
                   try_fetch (trend env (n_http st + i)) = Retry c) ->
      exists st',
        fetch_trending_stocks env retries delay st = (Raise FETCH_FAILED, st')
        /\ trace st' = trace st ++ failed_attempts causes delay
        /\ n_http st' = (n_http st + Z.to_nat retries)%nat).
  { intros env retries delay causes st Hlen Hd Hfail.
    destruct (fetch_loop_retries env delay causes (Z.to_nat retries) st Hd)
      as (st1 & Hrun & Htr & Hcalls); [lia | exact Hfail |].
    exists st1. unfold fetch_trending_stocks. rewrite Hrun, Hlen, Nat.sub_diag.
    repeat split; [exact Htr | now rewrite <- Hlen]. }
  assert (Hconnect : forall env st,
      (forall i, (i < 3)%nat -> connect_ok env (n_connect st + i) = false) ->
      exists st',
        connect_ib env st = (Raise CONNECT_FAILED, st')
        /\ n_connect st' = (n_connect st + 3)%nat
        /\ orders_of (trace st') = orders_of (trace st)).
  { intros env st Hfail.
    destruct (connect_loop_fails env 3 st Hfail) as (st' & Hrun & Htr & Hcalls).
    exists st'. repeat split; [exact Hrun | exact Hcalls |].
    rewrite Htr, orders_of_app. cbn. apply app_nil_r. }
  split; [exact Hfetch |]. split; [exact Hconnect |]. split.
  - intros env fuel st Hfail.
    destruct (Hconnect env st Hfail) as (st' & Hrun & Hcalls & Hord).
    exists st'. repeat split; [| exact Hcalls | exact Hord].
    unfold main. now apply bind_raise.
  - intros env fuel st causes Hconn Hlen Hfail.
    destruct (connect_ib env st) as [[[] | e] st1] eqn:Hc; [| discriminate].
    pose proof (connect_loop_n_http env 3 st) as Hh1.
    unfold connect_ib in Hc. rewrite Hc in Hh1. cbn [snd] in Hh1.
    destruct (close_all_positions_ok env st1) as (st2 & Hcl & Hh2 & _).
    destruct (Hfetch env 3 5 causes st2) as (st' & Hrun & _ & Hcalls);
      [exact Hlen | lia | rewrite Hh2, Hh1; exact Hfail |].
    assert (Hstart : startup env st = (Raise FETCH_FAILED, st')).
    { unfold startup, connect_ib. erewrite bind_ok by exact Hc.
      erewrite bind_ok by exact Hcl. exact Hrun. }
    destruct (startup_raises_main_raises env fuel st _ _ Hstart) as [Hmain Hbuy].
    exists st'. repeat split; [exact Hmain | | exact Hbuy].
    rewrite Hcalls, Hh2, Hh1. reflexivity.
Qed.

Lemma C7_exhausted_retries_abort_before_buying_witness :
  (exists st',
      fetch_trending_stocks (flaky_env 3) 3 5 (init_state nine_thirty)
      = (Raise FETCH_FAILED, st')
      /\ trace st'
         = failed_attempts [CauseRequest; CauseRequest; CauseRequest] 5
      /\ n_http st' = 3%nat)
  /\ (exists st',
        main offline_env a_day_of_polls (init_state nine_thirty)
        = (Raise CONNECT_FAILED, st')
        /\ n_connect st' = 3%nat
        /\ orders_of (trace st') = [])
  /\ (exists st',
        main (flaky_env 3) a_day_of_polls (init_state nine_thirty)
        = (Raise FETCH_FAILED, st')
        /\ n_http st' = 3%nat
        /\ orders_with BUY (trace st') = []).
Proof.
  destruct C7_exhausted_retries_abort_before_buying as (Hfetch & _ & Hoff & Hmain).
  assert (Hfail : forall (i : nat) (c : cause),
             nth_error [CauseRequest; CauseRequest; CauseRequest] i = Some c ->
             try_fetch (trend (flaky_env 3) (0 + i)) = Retry c).
  { intros [| [| [| i]]] c Hi; cbn in Hi; inversion Hi; subst; try reflexivity.
    destruct i; discriminate. }
  split; [| split].
  - apply (Hfetch (flaky_env 3) 3 5 [CauseRequest; CauseRequest; CauseRequest]
                  (init_state nine_thirty)); [reflexivity | discriminate | exact Hfail].
  - apply (Hoff offline_env a_day_of_polls (init_state nine_thirty)).
    intros i _. reflexivity.
  - apply (Hmain (flaky_env 3) a_day_of_polls (init_state nine_thirty)
                 [CauseRequest; CauseRequest; CauseRequest]);
      [reflexivity | reflexivity | exact Hfail].
Defined.

(** * Further properties of the code *)

(** ** The answer of the trend source *)

Lemma parse_items_ok (items : list item) (stocks : list (string * string)) :
  parse_items items = Ok stocks <-> items = map item_of stocks.
Proof.
  revert stocks. induction items as [| it rest IH]; intros stocks; cbn.
  - split.
    + intros H. inversion H. reflexivity.
    + destruct stocks; [reflexivity | discriminate].
  - destruct it as [[t |] [e |]]; cbn.
    + destruct (parse_items rest) as [l | x] eqn:E.
      * split.
        -- intros H. inversion H; subst. cbn. f_equal. now apply IH.
        -- destruct stocks as [| [t' e'] stocks']; [discriminate |].
           cbn. intros H. inversion H; subst.
           assert (Hl : Ok l = Ok stocks') by (now apply IH).
           inversion Hl. reflexivity.
      * split; [discriminate |].
        destruct stocks as [| [t' e'] stocks']; [discriminate |].
        cbn. intros H. inversion H; subst.
        assert (Hl : Raise x = Ok stocks') by (now apply IH). discriminate.
    + split; [discriminate | destruct stocks as [| [? ?] ?]; discriminate].
    + split; [discriminate | destruct stocks as [| [? ?] ?]; discriminate].
    + split; [discriminate | destruct stocks as [| [? ?] ?]; discriminate].
Qed.

Lemma parse_items_raise (items : list item) (e : exn) :
  parse_items items = Raise e ->
  e = KeyError /\ exists it, In it items /\ malformed it.
Proof.
  induction items as [| it rest IH]; cbn; [discriminate |].
  destruct it as [[t |] [x |]]; cbn.
  - destruct (parse_items rest) as [l | y]; [discriminate |].
    intros H. inversion H; subst.
    destruct (IH eq_refl) as (He & it & Hin & Hbad).
    split; [exact He |]. exists it. split; [now right | exact Hbad].
  - intros H. inversion H. split; [reflexivity |].
    eexists. split; [now left | now right].
  - intros H. inversion H. split; [reflexivity |].
    eexists. split; [now left | now left].
  - intros H. inversion H. split; [reflexivity |].
    eexists. split; [now left | now left].
Qed.

Lemma parse_items_malformed (items : list item) :
  (exists it, In it items /\ malformed it) -> parse_items items = Raise KeyError.
Proof.
  intros (it & Hin & Hbad).
  destruct (parse_items items) as [stocks | e] eqn:E.
  - apply parse_items_ok in E. subst items.
    apply in_map_iff in Hin. destruct Hin as (s & <- & _).
    destruct Hbad as [H | H]; discriminate.
  - apply parse_items_raise in E. now destruct E as [-> _].
Qed.

(** X1.  An attempt yields a list of tickers exactly when the answer has a
    results array whose first ten objects all carry both keys and are not
    zero in number; the list is made of those objects, in order, so it has
    between one and ten elements, and objects after the tenth have no
    influence, well formed or not. *)
Theorem fetched_is_first_ten_results :
  (forall r stocks,
      try_fetch r = Fetched stocks <->
      exists items,
        r = Body (Some items)
        /\ stocks <> []
        /\ firstn 10 items = map item_of stocks)
  /\ (forall r stocks,
        try_fetch r = Fetched stocks ->
        (1 <= List.length stocks <= 10)%nat)
  /\ (forall items extra,
        (10 <= List.length items)%nat ->
        try_fetch (Body (Some (items ++ extra))) = try_fetch (Body (Some items))).
Proof.
  assert (Hiff : forall r stocks,
      try_fetch r = Fetched stocks <->
      exists items,
        r = Body (Some items)
        /\ stocks <> []
        /\ firstn 10 items = map item_of stocks).
  { intros r stocks. split.
    - destruct r as [| | | | [| [| c s] | h] | before | [items |]];
        cbn -[firstn]; try discriminate.
      + destruct (parse_items (firstn 9 before)); discriminate.
      + destruct (parse_items (firstn 10 items)) as [[| s l] | e] eqn:E;
          try discriminate.
        intros H. inversion H; subst. exists items.
        split; [reflexivity |]. split; [discriminate |].
        now apply parse_items_ok.
    - intros (items & -> & Hne & Hitems).
      apply parse_items_ok in Hitems. cbn -[firstn]. rewrite Hitems.
      destruct stocks; [contradiction | reflexivity]. }
  split; [exact Hiff |]. split.
  - intros r stocks H. apply Hiff in H. destruct H as (items & _ & Hne & Hitems).
    split.
    + destruct stocks; [contradiction | cbn; lia].
    + rewrite <- (length_map item_of), <- Hitems. apply firstn_le_length.
  - intros items extra Hlen. cbn -[firstn].
    rewrite firstn_app.
    replace (10 - List.length items)%nat with 0%nat by lia.
    cbn [firstn]. now rewrite app_nil_r.
Qed.

Lemma fetched_is_first_ten_results_witness :
  (1 <= List.length [("AAPL", "NASDAQ"); ("SHOP", "TSX")] <= 10)%nat.
Proof.
  apply (proj1 (proj2 fetched_is_first_ten_results) two_tickers).
  reflexivity.
Defined.

Lemma try_fetch_uncaught (r : response) (e : exn) :
  try_fetch r = Uncaught e ->
  e = KeyError \/ e = TypeError \/ e = AttributeError.
Proof.
  destruct r as [| | | | [| [| c s] | h] | before | [items |]];
    cbn -[firstn]; try discriminate.
  - intros H. inversion H. auto.
  - intros H. inversion H. auto.
  - intros H. inversion H. auto.
  - intros H. inversion H. destruct h; auto.
  - destruct (parse_items (firstn 9 before)) as [l | x] eqn:E.
    + intros H. inversion H. auto.
    + intros H. inversion H; subst.
      destruct (parse_items_raise _ _ E) as [-> _]. auto.
  - destruct (parse_items (firstn 10 items)) as [[| s l] | x] eqn:E;
      try discriminate.
    intros H. inversion H; subst.
    destruct (parse_items_raise _ _ E) as [-> _]. auto.
Qed.

(** ** Every outcome of the fetch *)




Lemma fetch_loop_raise env delay n :
  forall st e st',
    fetch_loop env n delay st = (Raise e, st') ->
    (e = FETCH_FAILED
     /\ n_http st' = (n_http st + n)%nat
     /\ forall i, (i < n)%nat ->
                  exists c, try_fetch (trend env (n_http st + i)) = Retry c)
    \/ ((e = KeyError \/ e = TypeError \/ e = AttributeError)
        /\ try_fetch (trend env (pred (n_http st'))) = Uncaught e)
    \/ (e = ValueError /\ delay < 0).
Proof.
  induction n as [| n IH]; intros st e st'; cbn [fetch_loop].
  - intros H. inversion H; subst. left. split; [reflexivity |].
    split; [lia | intros i Hi; lia].
  - unfold bind at 1. cbn [http_get].
    destruct (try_fetch (trend env (n_http st))) as [l | c | x] eqn:E.
    + discriminate.
    + unfold bind at 1 2. unfold log, tell, sleep, emit. cbn.
      destruct (delay <? 0) eqn:Ed.
      * intros H. inversion H; subst. right. right.
        split; [reflexivity | now apply Z.ltb_lt].
      * intros H. apply IH in H. cbn [n_http] in H.
        destruct H as [(-> & Hcalls & Hfail) | H]; [left | right; exact H].
        split; [reflexivity |]. split; [lia |].
        intros [| i] Hi.
        -- exists c. now rewrite Nat.add_0_r.
        -- destruct (Hfail i) as (c' & Hc'); [lia |]. exists c'.
           now replace (n_http st + S i)%nat with (S (n_http st) + i)%nat by lia.
    + cbn [raise]. intros H. inversion H; subst. cbn [n_http pred].
      right. left. split; [exact (try_fetch_uncaught _ _ E) | exact E].
Qed.


(** The answers of the wrong shape, one by one. *)
Example wrong_shapes :
  map try_fetch
      [ NotAnObject;
        ResultsNotAList RNotSubscriptable;
        ResultsNotAList (RString "");
        ResultsNotAList (RString "AAPL");
        ResultsNotAList (RObject false);
        ResultsNotAList (RObject true);
        NonObjectEntry [];
        NonObjectEntry [mk_item (Some "AAPL") None];
        Body None;
        Body (Some []) ]
  = [ Uncaught AttributeError;
      Uncaught TypeError;
      Retry CauseValue;
      Uncaught TypeError;
      Uncaught TypeError;
      Uncaught KeyError;
      Uncaught TypeError;
      Uncaught KeyError;
      Retry CauseValue;
      Retry CauseValue ].
Proof. reflexivity. Qed.

(** A null under the results key ends the fetch with a TypeError after one
    request. *)
Example null_results_are_not_retried :
  fst (fetch_trending_stocks null_results_env 3 5 (init_state nine_thirty))
  = Raise TypeError
  /\ n_http (snd (fetch_trending_stocks null_results_env 3 5 (init_state nine_thirty)))
     = 1%nat.
Proof. split; reflexivity. Qed.

(** X3.  A KeyError is not caught by the retry loop: when one of the first
    ten objects of an answer lacks a key, the function raises KeyError
    right after that request, without a log line, a pause or another
    attempt. *)
Theorem malformed_answer_is_not_retried :
  forall env retries delay st items it,
    0 < retries ->
    trend env (n_http st) = Body (Some items) ->
    In it (firstn 10 items) ->
    malformed it ->
    exists st',
      fetch_trending_stocks env retries delay st = (Raise KeyError, st')
      /\ trace st' = trace st ++ [EHttpGet]
      /\ n_http st' = S (n_http st).
Proof.
  intros env retries delay st items it Hr Htrend Hin Hbad.
  unfold fetch_trending_stocks.
  destruct (Z.to_nat retries) as [| n] eqn:En; [lia |].
  cbn [fetch_loop]. unfold bind at 1. cbn [http_get]. rewrite Htrend.
  cbn -[firstn].
  rewrite (parse_items_malformed (firstn 10 items)) by (exists it; auto).
  cbn [raise]. eexists. repeat split.
Qed.

Lemma malformed_answer_is_not_retried_witness :
  exists st',
    fetch_trending_stocks malformed_env 3 5 (init_state nine_thirty)
    = (Raise KeyError, st')
    /\ trace st' = [EHttpGet]
    /\ n_http st' = 1%nat.
Proof.
  apply (malformed_answer_is_not_retried malformed_env 3 5 (init_state nine_thirty)
           [mk_item (Some "AAPL") (Some "NASDAQ"); mk_item (Some "SHOP") None]
           (mk_item (Some "SHOP") None)).
  - reflexivity.
  - reflexivity.
  - right. left. reflexivity.
  - right. reflexivity.
Defined.

(** X4.  With a negative delay the pause after the first failed attempt
    raises ValueError inside the handler: the function stops after one
    request and one log line, whatever [retries] allows. *)
Theorem negative_delay_stops_the_retries :
  forall env retries delay st c,
    0 < retries ->
    delay < 0 ->
    try_fetch (trend env (n_http st)) = Retry c ->
    exists st',
      fetch_trending_stocks env retries delay st = (Raise ValueError, st')
      /\ trace st' = trace st ++ [EHttpGet; ELog (LogFetchFailed c delay)]
      /\ n_http st' = S (n_http st).
Proof.
  intros env retries delay st c Hr Hd Hfail.
  unfold fetch_trending_stocks.
  destruct (Z.to_nat retries) as [| n] eqn:En; [lia |].
  cbn [fetch_loop]. unfold bind at 1. cbn [http_get]. rewrite Hfail.
  unfold bind at 1 2. unfold log, tell, sleep, emit. cbn.
  apply Z.ltb_lt in Hd. rewrite Hd.
  eexists. split; [reflexivity |]. cbn. split; [| reflexivity].
  rewrite <- app_assoc. reflexivity.
Qed.

Lemma negative_delay_stops_the_retries_witness :
  exists st',
    fetch_trending_stocks (flaky_env 1) 3 (-1) (init_state nine_thirty)
    = (Raise ValueError, st')
    /\ trace st' = [EHttpGet; ELog (LogFetchFailed CauseRequest (-1))]
    /\ n_http st' = 1%nat.
Proof.
  apply (negative_delay_stops_the_retries (flaky_env 1) 3 (-1)
           (init_state nine_thirty) CauseRequest); reflexivity.
Defined.

(** ** The connection *)

Lemma connect_loop_retries env k :
  forall n st,
    (k <= n)%nat ->
    (forall i, (i < k)%nat -> connect_ok env (n_connect st + i) = false) ->
    exists st1,
      connect_loop env n st = connect_loop env (n - k) st1
      /\ trace st1 = trace st ++ failed_connects k
      /\ n_connect st1 = (n_connect st + k)%nat
      /\ n_order st1 = n_order st.
Proof.
  induction k as [| k IH]; intros n st Hn Hfail.
  - exists st. cbn. rewrite Nat.sub_0_r, app_nil_r, Nat.add_0_r. auto.
  - destruct n as [| n]; [lia |].
    assert (H0 : connect_ok env (n_connect st) = false).
    { specialize (Hfail 0%nat). rewrite Nat.add_0_r in Hfail. apply Hfail. lia. }
    cbn [connect_loop]. unfold bind at 1. cbn [ib_connect]. rewrite H0.
    unfold bind at 1 2. unfold log, tell, sleep, emit. cbn.
    match goal with
    | |- exists st1, connect_loop env n ?s = _ /\ _ =>
        destruct (IH n s) as (st1 & Hrun & Htr & Hcalls & Hord)
    end.
    + lia.
    + intros i Hi. cbn [n_connect].
      replace (S (n_connect st) + i)%nat with (n_connect st + S i)%nat by lia.
      apply Hfail. lia.
    + exists st1. split; [exact Hrun |]. cbn in Htr, Hcalls, Hord.
      split; [| split; [lia | exact Hord]].
      rewrite Htr. unfold failed_connects. cbn. rewrite <- !app_assoc. reflexivity.
Qed.

(** X5.  When the first [k] connection attempts fail and the next one, still
    among the three, succeeds, [connect_ib] returns after [k] + 1 attempts,
    with a log line and a pause of five seconds after each failure and none
    after the success. *)
Theorem connect_succeeds_on_a_later_attempt :
  forall env k st,
    (k < 3)%nat ->
    (forall i, (i < k)%nat -> connect_ok env (n_connect st + i) = false) ->
    connect_ok env (n_connect st + k) = true ->
    exists st',
      connect_ib env st = (Ok tt, st')
      /\ trace st' = trace st ++ failed_connects k ++ [EConnect]
      /\ n_connect st' = (n_connect st + k + 1)%nat.
Proof.
  intros env k st Hk Hfail Hok.
  destruct (connect_loop_retries env k 3 st) as (st1 & Hrun & Htr & Hcalls & _);
    [lia | exact Hfail |].
  unfold connect_ib. rewrite Hrun.
  destruct (3 - k)%nat as [| m] eqn:Em; [lia |].
  cbn [connect_loop]. unfold bind at 1. cbn [ib_connect].
  rewrite Hcalls, Hok. cbn [ret].
  eexists. split; [reflexivity |]. cbn [trace n_connect].
  split; [rewrite Htr, <- app_assoc; reflexivity | lia].
Qed.

Lemma connect_succeeds_on_a_later_attempt_witness :
  exists st',
    connect_ib slow_gateway_env (init_state nine_thirty) = (Ok tt, st')
    /\ trace st' = [EConnect; ELog LogConnectFailed; ESleep 5; EConnect]
    /\ n_connect st' = 2%nat.
Proof.
  apply (connect_succeeds_on_a_later_attempt slow_gateway_env 1
           (init_state nine_thirty)).
  - lia.
  - intros [| i] Hi; [reflexivity | lia].
  - reflexivity.
Defined.

Lemma connect_loop_outcome env n :
  forall st r st',
    connect_loop env n st = (r, st') ->
    (n_connect st <= n_connect st' <= n_connect st + n)%nat
    /\ orders_of (trace st') = orders_of (trace st)
    /\ ((r = Ok tt
         /\ (n_connect st < n_connect st')%nat
         /\ connect_ok env (pred (n_connect st')) = true)
        \/ (r = Raise CONNECT_FAILED
            /\ n_connect st' = (n_connect st + n)%nat
            /\ forall i, (i < n)%nat -> connect_ok env (n_connect st + i) = false)).
Proof.
  induction n as [| n IH]; intros st r st'; cbn [connect_loop].
  - intros H. inversion H; subst. split; [lia |]. split; [reflexivity |]. right.
    split; [reflexivity |]. split; [lia | intros i Hi; lia].
  - unfold bind at 1. cbn [ib_connect].
    destruct (connect_ok env (n_connect st)) eqn:E.
    + intros H. inversion H; subst. cbn [n_connect trace]. split; [lia |].
      split; [rewrite orders_of_app; cbn; apply app_nil_r |]. left.
      split; [reflexivity |]. split; [lia | exact E].
    + unfold bind at 1 2. unfold log, tell, sleep, emit. cbn.
      intros H. apply IH in H. cbn [n_connect trace] in H.
      destruct H as (Hb & Hord & H).
      assert (Hord' : orders_of (trace st') = orders_of (trace st)).
      { rewrite Hord, !orders_of_app. cbn. now rewrite !app_nil_r. }
      destruct H as [(-> & Hlt & Hok) | (-> & Hcalls & Hfail)].
      * split; [lia |]. split; [exact Hord' |]. left.
        split; [reflexivity |]. split; [lia | exact Hok].
      * split; [lia |]. split; [exact Hord' |]. right.
        split; [reflexivity |]. split; [lia |].
        intros [| i] Hi.
        -- now rewrite Nat.add_0_r.
        -- replace (n_connect st + S i)%nat with (S (n_connect st) + i)%nat by lia.
           apply Hfail. lia.
Qed.

(** X6.  [connect_ib] makes between one and three connection attempts,
    places no order and sends no request to the trend source.  It returns
    exactly when one of the three attempts succeeds, and the attempt it
    stops at is that one; otherwise it raises its final exception after the
    third. *)
Theorem connect_outcomes :
  forall env st,
    let run := connect_ib env st in
    (n_connect st < n_connect (snd run) <= n_connect st + 3)%nat
    /\ n_http (snd run) = n_http st
    /\ orders_of (trace (snd run)) = orders_of (trace st)
    /\ (fst run = Ok tt \/ fst run = Raise CONNECT_FAILED)
    /\ (fst run = Ok tt <->
        exists i, (i < 3)%nat /\ connect_ok env (n_connect st + i) = true)
    /\ (fst run = Ok tt -> connect_ok env (pred (n_connect (snd run))) = true).
Proof.
  intros env st run. subst run. unfold connect_ib.
  pose proof (connect_loop_n_http env 3 st) as Hhttp.
  destruct (connect_loop env 3 st) as [r st'] eqn:E. cbn [fst snd] in *.
  destruct (connect_loop_outcome env 3 st r st' E)
    as (Hb & Hord & [(-> & Hlt & Hok) | (-> & Hcalls & Hfail)]).
  - split; [lia |]. split; [exact Hhttp |]. split; [exact Hord |].
    split; [now left |]. split; [| intros _; exact Hok].
    split; [intros _ | reflexivity].
    exists (pred (n_connect st') - n_connect st)%nat. split; [lia |].
    replace (n_connect st + (pred (n_connect st') - n_connect st))%nat
      with (pred (n_connect st')) by lia.
    exact Hok.
  - split; [lia |]. split; [exact Hhttp |]. split; [exact Hord |].
    split; [now right |]. split; [| discriminate].
    split; [discriminate |].
    intros (i & Hi & Hok). rewrite Hfail in Hok by exact Hi. discriminate.
Qed.

(** ** The liquidation *)

Lemma liquidate_effects ps :
  forall st,
    exists st',
      liquidate ps st = (Ok tt, st')
      /\ trace st'
         = trace st ++ map (fun cq => EPlaceOrder (fst cq) (MarketOrder SELL (snd cq))) ps
      /\ n_order st' = (n_order st + List.length ps)%nat
      /\ clock st' = clock st.
Proof.
  induction ps as [| [c q] rest IH]; intros st.
  - exists st. cbn. rewrite app_nil_r, Nat.add_0_r. auto.
  - cbn [liquidate]. unfold bind at 1. cbn [place_order].
    match goal with
    | |- exists st', liquidate rest ?s = _ /\ _ =>
        destruct (IH s) as (st' & Hrun & Htr & Hord & Hclock)
    end.
    exists st'. split; [exact Hrun |]. cbn in Htr, Hord, Hclock.
    split; [| split; [cbn; lia | exact Hclock]].
    rewrite Htr. cbn. rewrite <- app_assoc. reflexivity.
Qed.

Lemma orders_of_place (ps : list (Contract * Z)) :
  orders_of (map (fun cq => EPlaceOrder (fst cq) (MarketOrder SELL (snd cq))) ps)
  = map liquidation_order ps.
Proof.
  induction ps as [| cq rest IH]; [reflexivity |]. cbn. f_equal. exact IH.
Qed.

(** X7.  [close_all_positions] always returns.  It places one market sell
    per holding, in the order of the broker's list, on the holding's own
    contract and for the holding's quantity as it is (so a short holding
    gives a sell of a negative quantity and never a buy); it does not pause
    or look at any order status, and logs its message once, whether or not
    there was anything to sell. *)
Theorem liquidation_sells_every_holding :
  forall env st,
    exists st' evs,
      close_all_positions env st = (Ok tt, st')
      /\ trace st' = trace st ++ EPositions :: evs ++ [ELog LogClosedAll]
      /\ evs = map (fun cq => EPlaceOrder (fst cq) (MarketOrder SELL (snd cq)))
                   (held env)
      /\ orders_of (EPositions :: evs ++ [ELog LogClosedAll])
         = map liquidation_order (held env)
      /\ orders_with BUY (EPositions :: evs ++ [ELog LogClosedAll]) = []
      /\ n_order st' = (n_order st + List.length (held env))%nat
      /\ clock st' = clock st.
Proof.
  intros env st.
  destruct (liquidate_effects (held env) (emit EPositions st))
    as (st1 & Hrun & Htr & Hord & Hclock).
  unfold close_all_positions. unfold bind at 1. cbn [tell].
  erewrite bind_ok by exact Hrun. unfold log, tell.
  eexists.
  exists (map (fun cq => EPlaceOrder (fst cq) (MarketOrder SELL (snd cq))) (held env)).
  split; [reflexivity |].
  unfold emit in *. cbn [n_order trace clock] in *.
  split; [rewrite Htr, <- !app_assoc; reflexivity |].
  split; [reflexivity |].
  assert (Ho : orders_of
                 (EPositions
                  :: map (fun cq => EPlaceOrder (fst cq) (MarketOrder SELL (snd cq)))
                         (held env) ++ [ELog LogClosedAll])
               = map liquidation_order (held env)).
  { transitivity
      (orders_of
         ([EPositions]
          ++ map (fun cq => EPlaceOrder (fst cq) (MarketOrder SELL (snd cq)))
                 (held env) ++ [ELog LogClosedAll])); [reflexivity |].
    rewrite !orders_of_app, orders_of_place. cbn. apply app_nil_r. }
  split; [exact Ho |]. split; [| split; [exact Hord | exact Hclock]].
  unfold orders_with. rewrite Ho.
  generalize (held env). clear. intros l.
  induction l as [| cq rest IH]; [reflexivity | exact IH].
Qed.

(** A short holding of 5 TSLA is "closed" by selling -5. *)
Example short_holding_is_sold :
  orders_of (trace (snd (close_all_positions holding_env (init_state nine_thirty))))
  = [ (Stock "MSFT" "SMART" "USD", MarketOrder SELL 10);
      (Stock "TSLA" "SMART" "USD", MarketOrder SELL (-5)) ].
Proof. reflexivity. Qed.

(** ** What the buy loop records *)

Lemma orders_of_buy_events c q os :
  orders_of (buy_events c q os)
  = if 0 <? q then [(c, MarketOrder BUY q)] else [].
Proof.
  unfold buy_events, buy_warning.
  destruct (0 <? q); [destruct (accepted (status os)) |]; reflexivity.
Qed.

Lemma buy_loop_new env alloc stocks :
  forall market_price positions st,
    exists market_price' new st' evs,
      buy_loop env alloc stocks market_price positions st
      = (Ok (market_price', positions ++ new), st')
      /\ trace st' = trace st ++ evs
      /\ orders_of evs = map buy_order_of new
      /\ Forall (fun pos => 0 < snd (fst pos)
                            /\ In (fst (fst pos), snd pos)
                                  (map (fun s => (Stock (fst s) "SMART" "USD", snd s))
                                       stocks)) new
      /\ (List.length new <= List.length stocks)%nat
      /\ n_order st' = (n_order st + List.length new)%nat
      /\ n_mkt st' = (n_mkt st + List.length stocks)%nat.
Proof.
  induction stocks as [| [stock exchange] rest IH]; intros mp ps st.
  - exists mp, [], st, []. cbn. rewrite !app_nil_r, !Nat.add_0_r.
    repeat split; auto.
  - destruct (buy_one_spec env alloc stock exchange ps st)
      as (st1 & Hrun & Htr & Hmkt & Hord).
    cbn zeta in Hrun, Htr, Hord.
    set (c := Stock stock "SMART" "USD") in *.
    set (p := reference_price (market_data env (n_mkt st))) in *.
    set (q := share_quantity alloc p) in *.
    set (os := order_status env (n_order st)) in *.
    pose (first := if 0 <? q then [(c, q, exchange)] else @nil Position).
    assert (Hps : (if 0 <? q then ps ++ [(c, q, exchange)] else ps) = ps ++ first).
    { unfold first. destruct (0 <? q); [reflexivity | now rewrite app_nil_r]. }
    rewrite Hps in Hrun.
    destruct (IH (Some p) (ps ++ first) st1)
      as (mp' & new & st' & evs & Hloop & Htr' & Hevs & Hall & Hlen & Hord' & Hmkt').
    exists mp', (first ++ new), st', (buy_events c q os ++ evs).
    cbn [buy_loop]. erewrite bind_ok by exact Hrun.
    rewrite app_assoc. split; [exact Hloop |].
    split; [rewrite Htr', Htr, app_assoc; reflexivity |].
    split.
    { rewrite orders_of_app, orders_of_buy_events, map_app, Hevs.
      f_equal. unfold first. destruct (0 <? q); reflexivity. }
    split.
    { apply Forall_app. split.
      - unfold first. destruct (0 <? q) eqn:Eq; [| constructor].
        constructor; [| constructor]. cbn. split; [now apply Z.ltb_lt | now left].
      - eapply Forall_impl; [| exact Hall]. cbn. intros pos [H1 H2].
        split; [exact H1 | now right]. }
    split.
    { rewrite length_app. cbn [List.length].
      unfold first. destruct (0 <? q); cbn; unfold Position in *; lia. }
    split.
    { rewrite Hord', Hord, length_app. unfold first.
      destruct (0 <? q); cbn; unfold Position in *; lia. }
    rewrite Hmkt', Hmkt. cbn. lia.
Qed.

(** X8.  Whenever the buy loop, called as [main] calls it (no position
    yet, [market_price] unbound), returns, it has made one market data
    request per ticker, and the positions it returns mirror the buy orders
    it placed: the same contracts and quantities in the same order, one
    order per position and none besides.  Every position has a positive
    quantity, and pairs the SMART/USD contract of some ticker of the list
    with that ticker's exchange; there is at most one per ticker.
    [market_price] is bound afterwards exactly when the list had a ticker,
    so it is bound whenever there is a position to sell. *)
Theorem positions_mirror_buy_orders :
  forall env alloc stocks st market_price positions st',
    buy_loop env alloc stocks None [] st = (Ok (market_price, positions), st') ->
    exists evs,
      trace st' = trace st ++ evs
      /\ orders_of evs = map buy_order_of positions
      /\ Forall (fun pos => 0 < snd (fst pos)
                            /\ In (fst (fst pos), snd pos)
                                  (map (fun s => (Stock (fst s) "SMART" "USD", snd s))
                                       stocks)) positions
      /\ (List.length positions <= List.length stocks)%nat
      /\ n_order st' = (n_order st + List.length positions)%nat
      /\ n_mkt st' = (n_mkt st + List.length stocks)%nat
      /\ (market_price = None <-> stocks = [])
      /\ (positions <> [] -> market_price <> None).
Proof.
  intros env alloc stocks st market_price positions st0 Hgiven.
  destruct (buy_loop_new env alloc stocks None [] st)
    as (mp & new & st' & evs & Hrun & Htr & Hevs & Hall & Hlen & Hord & Hmkt).
  destruct (buy_loop_ok env alloc stocks None [] st) as (ps' & st'' & Hrun' & _).
  cbn [app] in Hrun. rewrite Hrun in Hrun'. inversion Hrun' as [[Hmp Hps Hst]].
  rewrite Hrun in Hgiven. inversion Hgiven; subst market_price positions st0.
  clear Hgiven.
  assert (Hbound : mp = None <-> stocks = []).
  { destruct stocks as [| s rest]; cbn in Hmp.
    - split; [reflexivity | intros _; congruence].
    - split; [intros H; rewrite H in Hmp; discriminate | discriminate]. }
  exists evs.
  do 6 (split; [assumption |]). split; [exact Hbound |].
  intros Hne Hnone. apply Hbound in Hnone. subst stocks.
  cbn in Hlen. destruct new; [contradiction | cbn in Hlen; lia].
Qed.

Lemma positions_mirror_buy_orders_witness :
  exists evs,
    trace (snd (buy_loop (sample_env (mk_status "Filled" 260)) 5000
                         [("AAPL", "NASDAQ"); ("SHOP", "TSX")] None []
                         (init_state nine_thirty)))
    = [] ++ evs
    /\ orders_of evs
       = map buy_order_of [ (Stock "AAPL" "SMART" "USD", 20, "NASDAQ");
                            (Stock "SHOP" "SMART" "USD", 55, "TSX") ]
    /\ Forall (fun pos => 0 < snd (fst pos)
                          /\ In (fst (fst pos), snd pos)
                                (map (fun s => (Stock (fst s) "SMART" "USD", snd s))
                                     [("AAPL", "NASDAQ"); ("SHOP", "TSX")]))
              [ (Stock "AAPL" "SMART" "USD", 20, "NASDAQ");
                (Stock "SHOP" "SMART" "USD", 55, "TSX") ]
    /\ (2 <= 2)%nat
    /\ n_order (snd (buy_loop (sample_env (mk_status "Filled" 260)) 5000
                              [("AAPL", "NASDAQ"); ("SHOP", "TSX")] None []
                              (init_state nine_thirty)))
       = (0 + 2)%nat
    /\ n_mkt (snd (buy_loop (sample_env (mk_status "Filled" 260)) 5000
                            [("AAPL", "NASDAQ"); ("SHOP", "TSX")] None []
                            (init_state nine_thirty)))
       = (0 + 2)%nat
    /\ (Some 90%Q = None <-> [("AAPL", "NASDAQ"); ("SHOP", "TSX")] = [])
    /\ ([ (Stock "AAPL" "SMART" "USD", 20, "NASDAQ");
          (Stock "SHOP" "SMART" "USD", 55, "TSX") ] <> [] -> Some 90%Q <> None).
Proof.
  apply (positions_mirror_buy_orders (sample_env (mk_status "Filled" 260)) 5000
           [("AAPL", "NASDAQ"); ("SHOP", "TSX")] (init_state nine_thirty)
           (Some 90%Q)
           [ (Stock "AAPL" "SMART" "USD", 20, "NASDAQ");
             (Stock "SHOP" "SMART" "USD", 55, "TSX") ]).
  vm_compute. reflexivity.
Defined.

(** ** The calendar as a table *)

(** X10.  Whatever string it is given, [get_market_times] returns an entry
    with an open and a close pair, both of which are valid times of day,
    the open before the close; a string that is not a key of the table
    (the lookup is case sensitive) gets the entry of NYSE. *)
Theorem calendar_entries_are_valid :
  (forall exchange,
      exists oh om ch cm,
        subscript (get_market_times exchange) "open" = Ok (PTuple [PInt oh; PInt om])
        /\ subscript (get_market_times exchange) "close" = Ok (PTuple [PInt ch; PInt cm])
        /\ datetime_time_star (PTuple [PInt oh; PInt om]) = Ok (mk_time oh om 0 0)
        /\ datetime_time_star (PTuple [PInt ch; PInt cm]) = Ok (mk_time ch cm 0 0)
        /\ time_lt (mk_time oh om 0 0) (mk_time ch cm 0 0) = true)
  /\ (forall exchange,
        dict_get MARKET_TIMES exchange = None ->
        get_market_times exchange = get_market_times "NYSE")
  /\ get_market_times "nyse" = get_market_times "NYSE"
  /\ get_market_times "LSE" <> get_market_times "lse".
Proof.
  split; [| split; [| split]].
  - intros exchange.
    unfold get_market_times, MARKET_TIMES_NYSE, MARKET_TIMES.
    cbn [dict_get].
    repeat (destruct (String.eqb _ exchange);
            [do 4 eexists; repeat split; reflexivity |]).
    do 4 eexists; repeat split; reflexivity.
  - intros exchange H. unfold get_market_times at 1. rewrite H. reflexivity.
  - reflexivity.
  - discriminate.
Qed.

Lemma calendar_entries_are_valid_witness :
  get_market_times "XETRA" = get_market_times "NYSE".
Proof.
  apply (proj1 (proj2 calendar_entries_are_valid) "XETRA"). reflexivity.
Defined.

(** ** The polling loop on a well-formed close time *)

Lemma clock_micros (c : Z) :
  0 <= c < day ->
  micros (mk_time (c / 3600) ((c / 60) mod 60) (c mod 60) 0) = c * 1000000.
Proof.
  intros Hc. unfold micros. cbn [hour minute second microsecond].
  unfold day in Hc. Z.to_euclidean_division_equations. lia.
Qed.

Lemma datetime_time_hm (h m : Z) :
  0 <= h <= 23 -> 0 <= m <= 59 ->
  datetime_time_star (PTuple [PInt h; PInt m]) = Ok (mk_time h m 0 0).
Proof.
  intros Hh Hm. unfold datetime_time_star, datetime_time, in_range. cbn.
  replace (0 <=? h) with true by (symmetry; apply Z.leb_le; lia).
  replace (h <=? 23) with true by (symmetry; apply Z.leb_le; lia).
  replace (0 <=? m) with true by (symmetry; apply Z.leb_le; lia).
  replace (m <=? 59) with true by (symmetry; apply Z.leb_le; lia).
  reflexivity.
Qed.

Lemma wait_for_close_step fuel h m st :
  0 <= h <= 23 -> 0 <= m <= 59 -> 0 <= clock st < day ->
  wait_for_close fuel (PTuple [PInt h; PInt m]) st
  = if clock st <? seconds_of h m
    then match fuel with
         | O => (Raise LoopFuelExhausted, emit ENow st)
         | S fuel' =>
             wait_for_close fuel' (PTuple [PInt h; PInt m])
               (mk_state (n_connect st) (n_http st) (n_mkt st) (n_order st)
                         ((clock st + 1) mod day)
                         ((trace st ++ [ENow]) ++ [ESleep 1]))
         end
    else (Ok tt, emit ENow st).
Proof.
  intros Hh Hm Hc.
  assert (Hlt : time_lt (mk_time (clock st mod day / 3600)
                                 ((clock st mod day / 60) mod 60)
                                 (clock st mod day mod 60) 0)
                        (mk_time h m 0 0)
                = (clock st <? seconds_of h m)).
  { rewrite (Z.mod_small (clock st) day) by exact Hc.
    unfold time_lt. rewrite clock_micros by exact Hc.
    unfold micros, seconds_of. cbn [hour minute second microsecond].
    destruct (clock st <? h * 3600 + m * 60) eqn:E.
    - apply Z.ltb_lt in E. apply Z.ltb_lt. lia.
    - apply Z.ltb_ge in E. apply Z.ltb_ge. lia. }
  destruct fuel as [| fuel']; cbn [wait_for_close];
    unfold bind at 1; unfold now_time at 1;
    rewrite datetime_time_hm by assumption; cbn [lift];
    unfold bind at 1; cbn [ret]; rewrite Hlt;
    destruct (clock st <? seconds_of h m); reflexivity.
Qed.

Lemma wait_for_close_runs (k : nat) :
  forall fuel h m st,
    0 <= h <= 23 -> 0 <= m <= 59 -> 0 <= clock st ->
    clock st + Z.of_nat k = seconds_of h m ->
    (k <= fuel)%nat ->
    exists st',
      wait_for_close fuel (PTuple [PInt h; PInt m]) st = (Ok tt, st')
      /\ clock st' = seconds_of h m
      /\ trace st' = trace st ++ polls k ++ [ENow]
      /\ n_order st' = n_order st.
Proof.
  assert (Hday : forall h m, 0 <= h <= 23 -> 0 <= m <= 59 -> seconds_of h m < day).
  { intros h m Hh Hm. unfold seconds_of, day. lia. }
  induction k as [| k IH]; intros fuel h m st Hh Hm Hc Hk Hfuel.
  - rewrite wait_for_close_step by (pose proof (Hday h m Hh Hm); lia || assumption).
    replace (clock st <? seconds_of h m) with false
      by (symmetry; apply Z.ltb_ge; lia).
    eexists. split; [reflexivity |]. cbn. repeat split. lia.
  - rewrite wait_for_close_step by (pose proof (Hday h m Hh Hm); lia || assumption).
    replace (clock st <? seconds_of h m) with true
      by (symmetry; apply Z.ltb_lt; lia).
    destruct fuel as [| fuel']; [lia |].
    pose proof (Hday h m Hh Hm) as Hd.
    match goal with
    | |- exists st', wait_for_close fuel' _ ?s = _ /\ _ =>
        destruct (IH fuel' h m s Hh Hm) as (st' & Hrun & Hclock & Htr & Hord)
    end.
    + cbn [clock]. apply Z.mod_pos_bound. unfold day. lia.
    + cbn [clock]. rewrite Z.mod_small by lia. lia.
    + lia.
    + exists st'. split; [exact Hrun |]. split; [exact Hclock |].
      cbn [trace n_order] in Htr, Hord. split; [| exact Hord].
      rewrite Htr. unfold polls. cbn. rewrite <- !app_assoc. reflexivity.
Qed.

(** X11.  Given a close time that is a valid (hour, minute) pair, the
    polling loop does what its comment says.  When the clock is already at
    or past the close time it returns after one clock read, without a
    pause.  When the clock is [k] seconds before the close time it returns,
    as soon as it is allowed [k] rounds, after [k] pauses of one second,
    with the clock at the close time, having placed no order. *)
Theorem polling_reaches_the_close_time :
  forall fuel h m st,
    0 <= h <= 23 -> 0 <= m <= 59 -> 0 <= clock st < day ->
    (seconds_of h m <= clock st ->
     wait_for_close fuel (PTuple [PInt h; PInt m]) st = (Ok tt, emit ENow st))
    /\ (clock st < seconds_of h m ->
        (Z.to_nat (seconds_of h m - clock st) <= fuel)%nat ->
        exists st',
          wait_for_close fuel (PTuple [PInt h; PInt m]) st = (Ok tt, st')
          /\ clock st' = seconds_of h m
          /\ trace st'
             = trace st ++ polls (Z.to_nat (seconds_of h m - clock st)) ++ [ENow]
          /\ n_order st' = n_order st).
Proof.
  intros fuel h m st Hh Hm Hc. split.
  - intros Hpast. rewrite wait_for_close_step by assumption.
    replace (clock st <? seconds_of h m) with false
      by (symmetry; apply Z.ltb_ge; lia).
    reflexivity.
  - intros Hbefore Hfuel.
    apply wait_for_close_runs; try assumption; lia.
Qed.

Lemma polling_reaches_the_close_time_witness :
  wait_for_close 5 (PTuple [PInt 15; PInt 55]) (init_state 57300)
  = (Ok tt, emit ENow (init_state 57300))
  /\ exists st',
       wait_for_close 5 (PTuple [PInt 15; PInt 55]) (init_state 57297) = (Ok tt, st')
       /\ clock st' = 57300
       /\ trace st' = [ENow; ESleep 1; ENow; ESleep 1; ENow; ESleep 1; ENow]
       /\ n_order st' = 0%nat.
Proof.
  destruct (polling_reaches_the_close_time 5 15 55 (init_state 57300))
    as [Hpast _]; [lia | lia | cbn; unfold day; lia |].
  destruct (polling_reaches_the_close_time 5 15 55 (init_state 57297))
    as [_ Hbefore]; [lia | lia | cbn; unfold day; lia |].
  split.
  - apply Hpast. cbn. unfold seconds_of. lia.
  - apply Hbefore.
    + cbn. unfold seconds_of. lia.
    + cbn. lia.
Defined.

(** ** Whole runs *)

Lemma startup_raise_kinds env st e st1 :
  startup env st = (Raise e, st1) ->
  e = CONNECT_FAILED \/ e = FETCH_FAILED
  \/ e = KeyError \/ e = TypeError \/ e = AttributeError.
Proof.
  unfold startup. unfold bind at 1.
  destruct (connect_ib env st) as [[[] | e0] s1] eqn:Hc.
  - destruct (close_all_positions_ok env s1) as (s2 & Hcl & _).
    erewrite bind_ok by exact Hcl.
    unfold fetch_trending_stocks. intros H.
    destruct (fetch_loop_raise _ _ _ _ _ _ H)
      as [(-> & _) | [([-> | [-> | ->]] & _) | (_ & Hd)]];
      auto; lia.
  - intros H. inversion H; subst.
    unfold connect_ib in Hc.
    destruct (connect_loop_outcome _ _ _ _ _ Hc) as (_ & _ & [(Hr & _) | (Hr & _)]);
      [discriminate | inversion Hr; auto].
Qed.

Lemma no_disconnect_at_startup (evs : list event) :
  Forall startup_event evs -> count_event is_disconnect evs = 0%nat.
Proof.
  unfold count_event. induction 1 as [| e evs He _ IH]; [reflexivity |].
  destruct e; cbn in *; try contradiction; exact IH.
Qed.

Lemma no_disconnect_while_trading (evs : list event) :
  Forall trading_event evs -> count_event is_disconnect evs = 0%nat.
Proof.
  unfold count_event. induction 1 as [| e evs He _ IH]; [reflexivity |].
  destruct e; cbn in *; try contradiction; exact IH.
Qed.

(** X12.  [main] disconnects and logs its summary only on the way to a
    normal return.  A run that returns has done both once, as its last
    steps; a run that ends with an exception, at whatever point, has done
    neither: the session to the gateway is left as it was. *)
Theorem disconnect_only_on_normal_return :
  forall env fuel st,
    let run := main env fuel st in
    exists evs,
      trace (snd run) = trace st ++ evs
      /\ match fst run with
         | Ok s =>
             exists before,
               evs = before
                     ++ [ELog (LogSummary (total_profit s) (daily_reserve s)
                                          (reserve_fund s));
                         EDisconnect; ELog LogComplete]
               /\ count_event is_disconnect before = 0%nat
               /\ count_event is_summary before = 0%nat
         | Raise _ =>
             count_event is_disconnect evs = 0%nat
             /\ count_event is_summary evs = 0%nat
         end.
Proof.
  intros env fuel st run. subst run. rewrite main_split.
  destruct (startup_emits env st) as (evs1 & Htr1 & Hall1 & _).
  destruct (startup env st) as [[stocks | e] st1] eqn:Hs; cbn [snd] in Htr1.
  - erewrite bind_ok by exact Hs.
    destruct (trade_day_trace env fuel 0 stocks st1) as (evs2 & Htr2 & Hall2).
    assert (Hd : count_event is_disconnect (evs1 ++ EAccountSummary :: evs2) = 0%nat).
    { rewrite count_event_app, (no_disconnect_at_startup evs1 Hall1).
      change (EAccountSummary :: evs2) with ([EAccountSummary] ++ evs2).
      rewrite count_event_app, (no_disconnect_while_trading evs2 Hall2).
      reflexivity. }
    assert (Hm : count_event is_summary (evs1 ++ EAccountSummary :: evs2) = 0%nat).
    { rewrite count_event_app.
      destruct (startup_events_no_buy evs1 Hall1) as [_ ->].
      change (EAccountSummary :: evs2) with ([EAccountSummary] ++ evs2).
      rewrite count_event_app.
      destruct (trading_events_no_summary evs2 Hall2) as [_ ->]. reflexivity. }
    destruct (trade_day env fuel 0 stocks st1) as [[p | e] st2] eqn:Hday;
      cbn [snd] in Htr2.
    + erewrite bind_ok by exact Hday.
      unfold reconcile, bind, log, tell, ret, emit. cbn.
      eexists. split.
      * rewrite Htr2, Htr1. repeat rewrite <- app_assoc. reflexivity.
      * exists (evs1 ++ EAccountSummary :: evs2).
        split; [repeat rewrite <- app_assoc; reflexivity |].
        split; [exact Hd | exact Hm].
    + erewrite bind_raise by exact Hday. cbn [fst snd].
      exists (evs1 ++ EAccountSummary :: evs2).
      split; [rewrite Htr2, Htr1, <- app_assoc; reflexivity |].
      split; [exact Hd | exact Hm].
  - erewrite bind_raise by exact Hs. cbn [fst snd].
    exists evs1. split; [exact Htr1 |]. split.
    + now apply no_disconnect_at_startup.
    + now destruct (startup_events_no_buy evs1 Hall1).
Qed.

Lemma orders_with_buy_orders (new : list Position) (evs : list event) :
  orders_of evs = map buy_order_of new ->
  orders_with BUY evs = map buy_order_of new.
Proof.
  intros H. unfold orders_with. rewrite H.
  induction new as [| pos rest IH] in |- *; [reflexivity |].
  cbn. f_equal. exact IH.
Qed.

Lemma sell_loop_any_fuel env f1 f2 market_price total positions st :
  sell_loop env f1 market_price total positions st
  = sell_loop env f2 market_price total positions st.
Proof.
  destruct positions as [| pos rest]; [reflexivity |].
  now rewrite !sell_loop_raises.
Qed.

Lemma trade_day_any_fuel env f1 f2 reserve stocks st :
  trade_day env f1 reserve stocks st = trade_day env f2 reserve stocks st.
Proof.
  unfold trade_day, bind.
  destruct (get_available_funds env reserve st) as [[funds | e] s1]; [| reflexivity].
  destruct (lift _ s1) as [[alloc | e] s2]; [| reflexivity].
  destruct (buy_loop env alloc stocks None [] s2) as [[[mp ps] | e] s3];
    [| reflexivity].
  apply sell_loop_any_fuel.
Qed.

Lemma rest_of_main_emits env fuel :
  emits (stocks <- fetch_trending_stocks env 3 5 ;;
         total_profit <- trade_day env fuel 0 stocks ;;
         reconcile 0 total_profit)
        (fun _ => True) (fun _ => True).
Proof.
  eapply emits_bind with (R := fun _ => True).
  - eapply emits_weaken; [apply fetch_loop_emits | intros; exact I | intros; exact I].
  - intros stocks _. eapply emits_bind with (R := fun _ => True).
    + intros st. destruct (trade_day_trace env fuel 0 stocks st) as (evs & Htr & _).
      exists (EAccountSummary :: evs). split; [exact Htr |].
      split; [apply Forall_forall; intros; exact I | intros; exact I].
    + intros p _. unfold reconcile.
      eapply emits_bind; [apply emits_tell; exact I |]. intros _ _.
      eapply emits_bind; [apply emits_tell; exact I |]. intros _ _.
      eapply emits_bind; [apply emits_tell; exact I |]. intros _ _.
      apply emits_ret. exact I.
Qed.

(** X14.  Once the connection is made, [main] sells every prior holding
    before it does anything else, and nothing that happens afterwards takes
    that back: whether the fetch fails, the run raises or returns, the
    orders of the run start with the liquidation orders, in the order of the
    broker's list. *)
Theorem holdings_are_sold_even_if_the_run_fails :
  forall env fuel st,
    fst (connect_ib env st) = Ok tt ->
    exists later,
      orders_of (trace (snd (main env fuel st)))
      = orders_of (trace st) ++ map liquidation_order (held env) ++ later.
Proof.
  intros env fuel st Hconn.
  destruct (connect_ib env st) as [[[] | e] s1] eqn:Hc; [| discriminate].
  pose proof Hc as Hc'. unfold connect_ib in Hc'.
  destruct (connect_loop_outcome _ _ _ _ _ Hc') as (_ & Hord1 & _).
  destruct (close_all_positions_ok env s1) as (s2 & Hcl & _ & Htr2).
  destruct (rest_of_main_emits env fuel s2) as (evs & Htr3 & _).
  exists (orders_of evs).
  unfold main. erewrite bind_ok by exact Hc. erewrite bind_ok by exact Hcl.
  cbn zeta. rewrite Htr3, Htr2.
  transitivity
    (orders_of
       ((trace s1
         ++ [EPositions]
         ++ map (fun cq => EPlaceOrder (fst cq) (MarketOrder SELL (snd cq))) (held env)
         ++ [ELog LogClosedAll]) ++ evs)); [reflexivity |].
  rewrite !orders_of_app, orders_of_place, Hord1. cbn.
  now rewrite <- !app_assoc.
Qed.

Lemma holdings_are_sold_even_if_the_run_fails_witness :
  exists later,
    orders_of (trace (snd (main holding_env a_day_of_polls (init_state nine_thirty))))
    = [ (Stock "MSFT" "SMART" "USD", MarketOrder SELL 10);
        (Stock "TSLA" "SMART" "USD", MarketOrder SELL (-5)) ] ++ later.
Proof.
  apply (holdings_are_sold_even_if_the_run_fails holding_env a_day_of_polls
           (init_state nine_thirty)).
  reflexivity.
Defined.

Lemma connect_outcomes_witness :
  exists i, (i < 3)%nat /\ connect_ok slow_gateway_env (0 + i) = true.
Proof.
  apply (proj1 (proj1 (proj2 (proj2 (proj2 (proj2
           (connect_outcomes slow_gateway_env (init_state nine_thirty)))))))).
  vm_compute. reflexivity.
Defined.

(** ** The reference price *)

(** X15.  The previous close stands in for the last trade price only when
    the last trade price is exactly zero.  A positive last price is used as
    it is; a negative one is used as well, and then no share is bought,
    however good the previous close and however large the budget. *)
Theorem close_price_only_replaces_a_zero_last_price :
  forall t alloc,
    ((last t == 0)%Q -> reference_price t = close t)
    /\ (~ (last t == 0)%Q -> reference_price t = last t)
    /\ ((last t < 0)%Q -> share_quantity alloc (reference_price t) = 0).
Proof.
  intros t alloc. unfold reference_price, truthy.
  split; [| split].
  - intros H. apply Qeq_bool_iff in H. now rewrite H.
  - intros H. destruct (Qeq_bool (last t) 0) eqn:E; [| reflexivity].
    apply Qeq_bool_iff in E. contradiction.
  - intros H. destruct (Qeq_bool (last t) 0) eqn:E.
    + apply Qeq_bool_iff in E. rewrite E in H. discriminate.
    + cbn [negb]. apply share_quantity_no_price. now apply Qlt_le_weak.
Qed.

Lemma close_price_only_replaces_a_zero_last_price_witness :
  reference_price (mk_ticker 0 90) = 90%Q
  /\ share_quantity 5000 (reference_price (mk_ticker (-1) 90)) = 0.
Proof.
  split.
  - apply (proj1 (close_price_only_replaces_a_zero_last_price (mk_ticker 0 90) 0%Q)).
    reflexivity.
  - apply (proj2 (proj2 (close_price_only_replaces_a_zero_last_price
                           (mk_ticker (-1) 90) 5000%Q))).
    reflexivity.
Defined.

(** ** The sale and the reserve in whole runs *)

Lemma trade_day_cases env fuel reserve stocks st :
  stocks <> [] ->
  exists market_price new st2 evs,
    buy_loop env (per_stock_budget env reserve stocks) stocks None []
             (emit EAccountSummary st)
    = (Ok (market_price, new), st2)
    /\ trace st2 = trace st ++ EAccountSummary :: evs
    /\ orders_of evs = map buy_order_of new
    /\ trade_day env fuel reserve stocks st
       = sell_loop env fuel market_price 0 new st2
    /\ ((new = [] /\ trade_day env fuel reserve stocks st = (Ok 0%Q, st2))
        \/ (new <> []
            /\ trade_day env fuel reserve stocks st
               = (Raise TypeError, emit ENow st2))).
Proof.
  intros Hne.
  destruct (buy_loop_new env (per_stock_budget env reserve stocks) stocks None []
                         (emit EAccountSummary st))
    as (mp & new & st2 & evs & Hloop & Htr & Hevs & _).
  cbn [app] in Hloop.
  assert (Hday : trade_day env fuel reserve stocks st
                 = sell_loop env fuel mp 0 new st2).
  { unfold trade_day, get_available_funds.
    unfold bind at 1 2. cbn [tell ret].
    rewrite allocation_defined by exact Hne. cbn [lift].
    unfold bind at 1. cbn [ret].
    fold (per_stock_budget env reserve stocks).
    erewrite bind_ok by exact Hloop. reflexivity. }
  exists mp, new, st2, evs.
  split; [exact Hloop |]. split.
  { rewrite Htr. cbn [emit trace]. rewrite <- app_assoc. reflexivity. }
  split; [exact Hevs |]. split; [exact Hday |].
  destruct new as [| pos rest].
  - left. split; [reflexivity |]. rewrite Hday. reflexivity.
  - right. split; [discriminate |]. rewrite Hday. apply sell_loop_raises.
Qed.

Lemma trade_day_no_stocks env fuel reserve st :
  trade_day env fuel reserve [] st
  = (Raise ZeroDivisionError, emit EAccountSummary st).
Proof. reflexivity. Qed.

Lemma no_sell_among_buy_orders (new : list Position) :
  filter (fun co => match action (snd co), SELL with
                    | BUY, BUY | SELL, SELL => true
                    | _, _ => false
                    end) (map buy_order_of new) = [].
Proof.
  induction new as [| pos rest IH]; [reflexivity | exact IH].
Qed.

(** The trading part of a run never books a profit and never sells. *)
Lemma trade_day_books_nothing env fuel reserve stocks st :
  match fst (trade_day env fuel reserve stocks st) with
  | Ok p => p = 0%Q
  | Raise _ => True
  end
  /\ orders_with SELL (trace (snd (trade_day env fuel reserve stocks st)))
     = orders_with SELL (trace st).
Proof.
  destruct stocks as [| s rest].
  - rewrite trade_day_no_stocks. cbn [fst snd emit trace]. split; [exact I |].
    rewrite orders_with_app. cbn. apply app_nil_r.
  - destruct (trade_day_cases env fuel reserve (s :: rest) st)
      as (mp & new & st2 & evs & _ & Htr & Hevs & _ & Hcase); [discriminate |].
    assert (Hsell : orders_with SELL (trace st2) = orders_with SELL (trace st)).
    { rewrite Htr.
      change (EAccountSummary :: evs) with ([EAccountSummary] ++ evs).
      rewrite !orders_with_app. unfold orders_with at 3. rewrite Hevs.
      rewrite no_sell_among_buy_orders. cbn. now rewrite !app_nil_r. }
    destruct Hcase as [(_ & ->) | (_ & ->)]; cbn [fst snd].
    + split; [reflexivity | exact Hsell].
    + split; [exact I |]. cbn [emit trace].
      rewrite orders_with_app, Hsell. cbn. apply app_nil_r.
Qed.

Lemma fetch_loop_no_order env delay n :
  forall st r st',
    fetch_loop env n delay st = (r, st') ->
    orders_of (trace st') = orders_of (trace st).
Proof.
  induction n as [| n IH]; intros st r st'; cbn [fetch_loop].
  - intros H. inversion H; subst. reflexivity.
  - unfold bind at 1. cbn [http_get].
    destruct (try_fetch (trend env (n_http st))).
    + intros H. inversion H; subst. cbn [trace].
      rewrite orders_of_app. cbn. apply app_nil_r.
    + unfold bind at 1 2. unfold log, tell, sleep, emit. cbn.
      destruct (delay <? 0).
      * intros H. inversion H; subst. cbn [trace].
        rewrite !orders_of_app. cbn. now rewrite !app_nil_r.
      * intros H. apply IH in H. cbn [trace] in H.
        rewrite H, !orders_of_app. cbn. now rewrite !app_nil_r.
    + intros H. inversion H; subst. cbn [trace].
      rewrite orders_of_app. cbn. apply app_nil_r.
Qed.

Lemma startup_orders env st stocks st1 :
  startup env st = (Ok stocks, st1) ->
  orders_of (trace st1)
  = orders_of (trace st) ++ map liquidation_order (held env).
Proof.
  unfold startup. intros H.
  apply bind_inv_ok in H. destruct H as ([] & s1 & Hc & H).
  apply bind_inv_ok in H. destruct H as ([] & s2 & Hcl & H).
  unfold connect_ib in Hc.
  destruct (connect_loop_outcome _ _ _ _ _ Hc) as (_ & Hord1 & _).
  destruct (close_all_positions_ok env s1) as (s2' & Hcl' & _ & Htr2).
  rewrite Hcl in Hcl'. inversion Hcl'; subst s2'. clear Hcl'.
  unfold fetch_trending_stocks in H.
  rewrite (fetch_loop_no_order _ _ _ _ _ _ H), Htr2.
  transitivity
    (orders_of
       (trace s1
        ++ [EPositions]
        ++ map (fun cq => EPlaceOrder (fst cq) (MarketOrder SELL (snd cq))) (held env)
        ++ [ELog LogClosedAll])); [reflexivity |].
  rewrite !orders_of_app, orders_of_place, Hord1. cbn. now rewrite app_nil_r.
Qed.

(** A run that returns has bought nothing. *)
Lemma main_returns env fuel st s st' :
  main env fuel st = (Ok s, st') ->
  s = mk_summary 0 (0 * RESERVE_PERCENTAGE) (0 + 0 * RESERVE_PERCENTAGE)
  /\ orders_of (trace st')
     = orders_of (trace st) ++ map liquidation_order (held env).
Proof.
  intros Hmain. rewrite main_split in Hmain.
  apply bind_inv_ok in Hmain. destruct Hmain as (stocks & st1 & Hstart & Hmain).
  apply bind_inv_ok in Hmain. destruct Hmain as (p & st2 & Hday & Hrec).
  pose proof (startup_nonempty _ _ _ _ Hstart) as Hne.
  pose proof (startup_orders _ _ _ _ Hstart) as Hord1.
  destruct (trade_day_cases env fuel 0 stocks st1 Hne)
    as (mp & new & st2' & evs & _ & Htr & Hevs & _ & Hcase).
  destruct Hcase as [(-> & Hok) | (_ & Hraise)];
    [| rewrite Hraise in Hday; discriminate].
  rewrite Hok in Hday. inversion Hday; subst p st2'. clear Hday.
  unfold reconcile, bind, log, tell, ret, emit in Hrec. cbn in Hrec.
  inversion Hrec; subst. clear Hrec. split; [reflexivity |].
  cbn [trace]. rewrite !orders_of_app, Htr.
  change (EAccountSummary :: evs) with ([EAccountSummary] ++ evs).
  rewrite !orders_of_app, Hevs, Hord1. cbn. now rewrite !app_nil_r.
Qed.

(** A run that raises has logged no summary. *)
Lemma main_raises env fuel st e st' :
  main env fuel st = (Raise e, st') ->
  count_event is_summary (trace st') = count_event is_summary (trace st).
Proof.
  intros Hmain. rewrite main_split in Hmain.
  destruct (startup_emits env st) as (evs1 & Htr1 & Hall1 & _).
  destruct (startup_events_no_buy evs1 Hall1) as [_ Hno1].
  destruct (startup env st) as [[stocks | e1] st1] eqn:Hs; cbn [snd] in Htr1.
  - erewrite bind_ok in Hmain by exact Hs.
    destruct (trade_day_trace env fuel 0 stocks st1) as (evs2 & Htr2 & Hall2).
    destruct (trading_events_no_summary evs2 Hall2) as [_ Hno2].
    destruct (trade_day env fuel 0 stocks st1) as [[p | e2] st2] eqn:Hday;
      cbn [snd] in Htr2.
    + erewrite bind_ok in Hmain by exact Hday.
      unfold reconcile, bind, log, tell, ret in Hmain. discriminate.
    + erewrite bind_raise in Hmain by exact Hday.
      inversion Hmain; subst. rewrite Htr2, Htr1.
      change (EAccountSummary :: evs2) with ([EAccountSummary] ++ evs2).
      rewrite !count_event_app, Hno1, Hno2. cbn. lia.
  - erewrite bind_raise in Hmain by exact Hs.
    inversion Hmain; subst. rewrite Htr1, count_event_app, Hno1. lia.
Qed.

(** C3 (the code departs from the claim).  One ticker, AAPL at 250 with a
    budget of 5000: the buy loop buys 20 shares and leaves 250 in
    [market_price]; the sell statements, run on that position with a sale
    filled at 260, would add (260 - 250) * 20 = 200 to the total profit.
    An iteration of the sell loop is the unpacking, the wait and then these
    statements on the loop's [market_price] and running total, the total
    it returns going to the next iteration; and [trade_day] enters the
    loop with a total of 0 and the price of the last ticker of the buy
    loop.  But the wait raises, so the statements are never reached: in the
    run [main] ends with the type error, having placed the buy order only
    and logged no summary, and in no run does the trading part of [main]
    return any profit but 0 or place a sell order. *)
Theorem C3_filled_sale_is_never_booked :
  fst (buy_loop scenario_env 5000 [("AAPL", "NASDAQ")] None []
                (init_state nine_thirty))
  = Ok (Some 250%Q, [(Stock "AAPL" "SMART" "USD", 20, "NASDAQ")])
  /\ fst (sell_position scenario_env (Some 250%Q) 0
                        (Stock "AAPL" "SMART" "USD") 20 (init_state nine_thirty))
     = Ok (0 + (260 - 250) * inject_Z 20)%Q
  /\ (0 + (260 - 250) * inject_Z 20 == 200)%Q
  /\ (forall env fuel market_price total contract quantity exchange rest,
        sell_one env fuel market_price total (contract, quantity, exchange)
        = ('(_, close_time) <- lift (unpack2 (get_market_times exchange)) ;;
           wait_for_close fuel close_time ;;
           sell_position env market_price total contract quantity)
        /\ sell_loop env fuel market_price total
                     ((contract, quantity, exchange) :: rest)
           = (total' <- sell_one env fuel market_price total
                                 (contract, quantity, exchange) ;;
              sell_loop env fuel market_price total' rest))
  /\ (forall env fuel reserve stocks st,
        stocks <> [] ->
        exists positions st2,
          buy_loop env (per_stock_budget env reserve stocks) stocks None []
                   (emit EAccountSummary st)
          = (Ok (Some (reference_price
                         (market_data env (n_mkt st + List.length stocks - 1))),
                 positions), st2)
          /\ trade_day env fuel reserve stocks st
             = sell_loop env fuel
                         (Some (reference_price
                                  (market_data env
                                     (n_mkt st + List.length stocks - 1))))
                         0 positions st2)
  /\ (let run := main scenario_env a_day_of_polls (init_state nine_thirty) in
      fst run = Raise TypeError
      /\ orders_of (trace (snd run))
         = [(Stock "AAPL" "SMART" "USD", MarketOrder BUY 20)]
      /\ count_event is_summary (trace (snd run)) = 0%nat)
  /\ (forall env fuel reserve stocks st,
        match fst (trade_day env fuel reserve stocks st) with
        | Ok p => p = 0%Q
        | Raise _ => True
        end
        /\ orders_with SELL (trace (snd (trade_day env fuel reserve stocks st)))
           = orders_with SELL (trace st)).
Proof.
  split; [reflexivity |]. split; [reflexivity |]. split; [reflexivity |].
  split; [intros; split; reflexivity |]. split; [| split].
  - intros env fuel reserve stocks st Hne.
    destruct (trade_day_cases env fuel reserve stocks st Hne)
      as (mp & new & st2 & evs & Hloop & _ & _ & Hday & _).
    destruct (buy_loop_ok env (per_stock_budget env reserve stocks) stocks None []
                          (emit EAccountSummary st))
      as (ps' & st' & Hloop' & _).
    rewrite Hloop in Hloop'. inversion Hloop' as [[Hmp Hps Hst]].
    destruct stocks as [| s rest]; [contradiction |].
    cbn [emit n_mkt] in Hmp. subst mp.
    exists new, st2. split; [exact Hloop | exact Hday].
  - vm_compute. repeat split.
  - intros. apply trade_day_books_nothing.
Qed.

(** C7 as stated fails for a negative delay: with one attempt allowed and a
    delay of -1, the one attempt fails, and the pause that follows raises
    ValueError; the final exception of the function is not raised. *)
Lemma C7_negative_delay_preempts_the_final_error :
  try_fetch (trend (flaky_env 1) 0) = Retry CauseRequest
  /\ fst (fetch_trending_stocks (flaky_env 1) 1 (-1) (init_state nine_thirty))
     = Raise ValueError
  /\ n_http (snd (fetch_trending_stocks (flaky_env 1) 1 (-1) (init_state nine_thirty)))
     = 1%nat
  /\ fst (fetch_trending_stocks (flaky_env 1) 1 (-1) (init_state nine_thirty))
     <> Raise FETCH_FAILED.
Proof. repeat split. discriminate. Qed.

(** C9 (the code departs from the claim).  The closing statements of [main]
    do set the daily reserve to a quarter of the total profit and add it to
    the reserve, whatever the two values are.  But a run that has bought
    never gets to them: with 20 AAPL and 55 SHOP bought, [main] ends with
    the type error of the wait and no summary is logged, so the reserve is
    not incremented in that run.  In general a run that raises has logged
    no summary, and a run that returns has a total profit of 0 and a
    reserve that is still 0. *)
Theorem C9_reserve_is_not_accrued_after_a_buy :
  (forall prior p st,
      exists st',
        reconcile prior p st
        = (Ok (mk_summary p (p * RESERVE_PERCENTAGE) (prior + p * RESERVE_PERCENTAGE))%Q,
           st')
        /\ trace st'
           = trace st
             ++ [ELog (LogSummary p (p * RESERVE_PERCENTAGE)
                                  (prior + p * RESERVE_PERCENTAGE))%Q;
                 EDisconnect; ELog LogComplete]
        /\ (p * RESERVE_PERCENTAGE == (1 # 4) * p)%Q)
  /\ (let run := main (sample_env (mk_status "Filled" 260)) a_day_of_polls
                      (init_state nine_thirty) in
      fst run = Raise TypeError
      /\ orders_with BUY (trace (snd run))
         = [ (Stock "AAPL" "SMART" "USD", MarketOrder BUY 20);
             (Stock "SHOP" "SMART" "USD", MarketOrder BUY 55) ]
      /\ count_event is_summary (trace (snd run)) = 0%nat)
  /\ (forall env fuel st,
        match fst (main env fuel st) with
        | Ok s =>
            total_profit s = 0%Q
            /\ (daily_reserve s == 0)%Q
            /\ (reserve_fund s == 0)%Q
        | Raise _ =>
            count_event is_summary (trace (snd (main env fuel st)))
            = count_event is_summary (trace st)
        end).
Proof.
  split; [| split].
  - intros prior p st. unfold reconcile, bind, log, tell, ret, emit. cbn.
    eexists. split; [reflexivity |]. cbn. split.
    + rewrite <- ?app_assoc. reflexivity.
    + unfold RESERVE_PERCENTAGE.
      setoid_replace (25 # 100)%Q with (1 # 4)%Q by reflexivity. ring.
  - vm_compute. repeat split.
  - intros env fuel st.
    destruct (main env fuel st) as [[s | e] st'] eqn:Hmain; cbn [fst snd].
    + destruct (main_returns _ _ _ _ _ Hmain) as [-> _]. cbn.
      repeat split.
    + exact (main_raises _ _ _ _ _ Hmain).
Qed.

(** X13.  [main] returns only when the buy loop placed no order.  A run
    that returns has placed the liquidation orders and no other order, and
    its total profit, daily reserve and reserve are 0; so a run that places
    a buy order never ends normally.  The bound given for the polling loop
    has no influence on the run. *)
Theorem main_returns_only_without_a_buy :
  forall env fuel st s st',
    main env fuel st = (Ok s, st') ->
    total_profit s = 0%Q
    /\ (daily_reserve s == 0)%Q
    /\ (reserve_fund s == 0)%Q
    /\ orders_of (trace st')
       = orders_of (trace st) ++ map liquidation_order (held env)
    /\ orders_with BUY (trace st') = orders_with BUY (trace st)
    /\ forall fuel', main env fuel' st = (Ok s, st').
Proof.
  intros env fuel st s st' Hmain.
  destruct (main_returns _ _ _ _ _ Hmain) as [Hs Hord].
  split; [subst s; reflexivity |].
  split; [subst s; reflexivity |].
  split; [subst s; reflexivity |].
  split; [exact Hord |]. split.
  - unfold orders_with. rewrite Hord, filter_app.
    assert (Hno : filter (fun co => match action (snd co), BUY with
                                    | BUY, BUY | SELL, SELL => true
                                    | _, _ => false
                                    end) (map liquidation_order (held env)) = []).
    { generalize (held env). clear. intros l.
      induction l as [| cq rest IH]; [reflexivity | exact IH]. }
    rewrite Hno. apply app_nil_r.
  - intros fuel'. rewrite <- Hmain. rewrite !main_split. unfold bind at 1 3.
    destruct (startup env st) as [[stocks | e] st1]; [| reflexivity].
    unfold bind. rewrite (trade_day_any_fuel env fuel' fuel). reflexivity.
Qed.

Lemma main_returns_only_without_a_buy_witness :
  total_profit (mk_summary 0 (0 * RESERVE_PERCENTAGE) (0 + 0 * RESERVE_PERCENTAGE))
  = 0%Q
  /\ orders_of (trace (snd (main broke_env a_day_of_polls (init_state nine_thirty))))
     = [] ++ map liquidation_order (held broke_env).
Proof.
  destruct (main_returns_only_without_a_buy broke_env a_day_of_polls
              (init_state nine_thirty)
              (mk_summary 0 (0 * RESERVE_PERCENTAGE) (0 + 0 * RESERVE_PERCENTAGE))
              (snd (main broke_env a_day_of_polls (init_state nine_thirty))))
    as (Hp & _ & _ & Hord & _).
  - vm_compute. reflexivity.
  - split; [exact Hp | exact Hord].
Defined.

(** The ranges are checked before the tzinfo. *)
Example range_checked_before_tzinfo :
  datetime_time [PInt 25; PInt 0; PInt 0; PInt 0; PInt 5] = Raise ValueError
  /\ datetime_time [PInt 23; PInt 0; PInt 0; PInt 0; PInt 5] = Raise TypeError
  /\ datetime_time [PInt 23; PStr "0"] = Raise TypeError.
Proof. repeat split. Qed.
